(** * ORION SNN consciousness assessment: a shallow embedding

    The development embeds [src/orion_snn_consciousness.py]:
    the class [SNNConsciousnessAssessor] with its method
    [assess_from_spikes], and the class [EIRABridge] with [status].

    Modelling choices.
    - The method takes a [Dict[str, Any]]: Python values are the tagged
      union [pyval], dictionaries are association lists in insertion
      order, and every primitive that can raise returns a [result].
    - A Python [float] is modelled by the real number it denotes, as an
      exact rational [Q] kept in lowest terms; [int] stays [Z].  The
      distinction between [int] and [float] results ([0] versus [0.0])
      is kept; the rounding errors of binary64, its infinities and NaN
      are not modelled.  Two consequences: [round] acts on the exact
      value, so at a decimal tie its last digit can differ from the one
      Python gets from the nearest double; and no product overflows, so
      where Python raises [OverflowError] on an [int] too large for a
      [float], or returns an infinity, the model goes on with the exact
      number.  Bounds and order relations do not depend on that last
      digit; a statement that an overflow would falsify carries a bound
      on the magnitudes involved ([float_range], [transfer_bounded]).
      The module [Binary64] evaluates two of the
      blocks over IEEE doubles to compare the two arithmetics on the
      concrete values the statements name.
    - [json.dumps], [hashlib.sha256] and the clock are parameters.
    - The caller's later mutation of a dictionary it passed in or got
      back is outside the method and is not modelled. *)

From Stdlib Require Import ZArith QArith Qround Qreduction Lqa Lia.
From Stdlib Require Import Bool List String Ascii DecimalString.
From Stdlib Require PrimFloat.
Import ListNotations.

Local Open Scope string_scope.
Local Open Scope Z_scope.

(** ** Python values *)

#[local] Unset Elimination Schemes.

(** The values an input of type [Dict[str, Any]] is built from.  [PObj]
    stands for any other object: it takes part in none of the operations
    below except the truth test.  Where a serialiser is run on one, it
    is an object [json.dumps] raises on even with [default=str], such as
    a list that contains itself; an object that [str] accepts is
    serialised as the string it gives. *)
Inductive pyval : Type :=
| PNone
| PBool (b : bool)
| PInt (z : Z)
| PFloat (q : Q)
| PStr (s : string)
| PList (l : list pyval)
| PDict (d : list (string * pyval))
| PObj (id : nat).

#[local] Set Elimination Schemes.

(** A [dict] with string keys, in insertion order. *)
Definition dict : Type := list (string * pyval).

Fixpoint dict_get (k : string) (d : dict) : option pyval :=
  match d with
  | [] => None
  | (k', v) :: d' => if String.eqb k k' then Some v else dict_get k d'
  end.

(** [d.get(k, default)]; [d.get(k)] is [get d k PNone]. *)
Definition get (d : dict) (k : string) (default : pyval) : pyval :=
  match dict_get k d with
  | Some v => v
  | None => default
  end.

(** [d[k] = v]: an existing key keeps its place, a new one goes last. *)
Fixpoint dict_set (k : string) (v : pyval) (d : dict) : dict :=
  match d with
  | [] => [(k, v)]
  | (k', v') :: d' =>
      if String.eqb k k' then (k', v) :: d' else (k', v') :: dict_set k v d'
  end.

Fixpoint dict_remove (k : string) (d : dict) : dict :=
  match d with
  | [] => []
  | (k', v') :: d' =>
      if String.eqb k k' then dict_remove k d' else (k', v') :: dict_remove k d'
  end.

(** ** Exceptions *)

(** [SerializationError] stands for whatever [json.dumps] raises. *)
Inductive exn : Type :=
| TypeError
| AttributeError
| KeyError
| ZeroDivisionError
| SerializationError.

Inductive result (A : Type) : Type :=
| Ok (a : A)
| Raise (e : exn).

Arguments Ok {A} a.
Arguments Raise {A} e.

Definition bind {A B : Type} (m : result A) (f : A -> result B) : result B :=
  match m with
  | Ok a => f a
  | Raise e => Raise e
  end.

Notation "x <- m ;; k" := (bind m (fun x => k))
  (at level 61, m at next level, right associativity).

(** [v.get(k, default)] on an arbitrary value: only a dict has [get]. *)
Definition attr_get (v : pyval) (k : string) (default : pyval) : result pyval :=
  match v with
  | PDict d => Ok (get d k default)
  | _ => Raise AttributeError
  end.

(** [v[k]] *)
Definition getitem (v : pyval) (k : string) : result pyval :=
  match v with
  | PDict d =>
      match dict_get k d with
      | Some x => Ok x
      | None => Raise KeyError
      end
  | _ => Raise TypeError
  end.

(** ** Numbers *)

Inductive num : Type :=
| NInt (z : Z)
| NFloat (q : Q).

(** [bool] is a subclass of [int]. *)
Definition as_num (v : pyval) : option num :=
  match v with
  | PBool b => Some (NInt (Z.b2z b))
  | PInt z => Some (NInt z)
  | PFloat q => Some (NFloat q)
  | _ => None
  end.

Definition num_Q (n : num) : Q :=
  match n with
  | NInt z => inject_Z z
  | NFloat q => q
  end.

Definition Qltb (x y : Q) : bool := negb (Qle_bool y x).

(** The arithmetic below is Python's where one operand is a [float] or
    the result of an earlier operation, which is how the source uses it:
    anything that is not a number then raises [TypeError]. *)
Definition py_add (a b : pyval) : result pyval :=
  match as_num a, as_num b with
  | Some (NInt x), Some (NInt y) => Ok (PInt (x + y))
  | Some x, Some y => Ok (PFloat (Qred (num_Q x + num_Q y)))
  | _, _ => Raise TypeError
  end.

Definition py_mul (a b : pyval) : result pyval :=
  match as_num a, as_num b with
  | Some (NInt x), Some (NInt y) => Ok (PInt (x * y))
  | Some x, Some y => Ok (PFloat (Qred (num_Q x * num_Q y)))
  | _, _ => Raise TypeError
  end.

(** True division [a / b]. *)
Definition py_div (a b : pyval) : result pyval :=
  match as_num a, as_num b with
  | Some x, Some y =>
      if Qeq_bool (num_Q y) 0 then Raise ZeroDivisionError
      else Ok (PFloat (Qred (num_Q x / num_Q y)))
  | _, _ => Raise TypeError
  end.

(** [a > b] and [a < b] *)
Definition py_gt (a b : pyval) : result bool :=
  match as_num a, as_num b with
  | Some x, Some y => Ok (Qltb (num_Q y) (num_Q x))
  | _, _ => Raise TypeError
  end.

Definition py_lt (a b : pyval) : result bool := py_gt b a.

(** [min(a, b)]: the second argument wins only when strictly smaller. *)
Definition py_min (a b : pyval) : result pyval :=
  c <- py_lt b a ;;
  Ok (if c then b else a).

(** Round half to even, to an integer. *)
Definition round_half_even (q : Q) : Z :=
  let f := Qfloor q in
  match (q - inject_Z f ?= 1 # 2)%Q with
  | Lt => f
  | Gt => f + 1
  | Eq => if Z.even f then f else f + 1
  end.

Definition pow10 (ndigits : nat) : positive := Pos.pow 10 (Pos.of_nat ndigits).

(** [round(v, ndigits)] for [ndigits > 0]: an [int] is returned as it is,
    a [float] is rounded half to even at that decimal place. *)
Definition py_round (v : pyval) (ndigits : nat) : result pyval :=
  match as_num v with
  | Some (NInt z) => Ok (PInt z)
  | Some (NFloat q) =>
      let s := pow10 ndigits in
      Ok (PFloat (Qred (round_half_even (q * inject_Z (Zpos s)) # s)))
  | None => Raise TypeError
  end.

(** Truth value of an object in a condition. *)
Definition truthy (v : pyval) : bool :=
  match v with
  | PNone => false
  | PBool b => b
  | PInt z => negb (z =? 0)
  | PFloat q => negb (Qeq_bool q 0)
  | PStr s => negb (s =? "")%string
  | PList l => match l with [] => false | _ => true end
  | PDict d => match d with [] => false | _ => true end
  | PObj _ => true
  end.

(** [v is True] *)
Definition is_True (v : pyval) : bool :=
  match v with
  | PBool true => true
  | _ => false
  end.

(** [str(n)] of a non-negative count. *)
Definition str_of_nat (n : nat) : string :=
  NilZero.string_of_uint (Nat.to_uint n).

(** ** The five theory indicators

    Each block follows the source in evaluation order. *)

Local Open Scope Q_scope.

(** RPT: recurrent processing. *)
Definition rpt (spike_data : dict) (rec gamma_power : pyval) : result dict :=
  let has_rec := get spike_data "network_recurrence" (PBool false) in
  let t1 := if truthy has_rec then PFloat 0.3 else PInt 0 in
  c2 <- py_gt rec (PInt 3) ;;
  let t2 := if c2 then PFloat 0.2 else PInt 0 in
  s <- py_add t1 t2 ;;
  let t3 :=
    if truthy (get spike_data "has_top_down_connections" PNone)
    then PFloat 0.2 else PInt 0 in
  s <- py_add s t3 ;;
  c4 <- py_gt gamma_power (PInt 0) ;;
  t4 <- (if c4 then
           r <- py_div gamma_power (PFloat 0.5) ;;
           m <- py_min (PInt 1) r ;;
           py_mul (PFloat 0.3) m
         else Ok (PInt 0)) ;;
  s <- py_add s t4 ;;
  rpt_score <- py_min (PFloat 1.0) s ;;
  g <- py_gt gamma_power (PFloat 0.2) ;;
  score <- py_round rpt_score 3 ;;
  Ok [("recurrent_processing", has_rec);
      ("feedback_depth", rec);
      ("gamma_oscillations", PBool g);
      ("score", score)].

(** GWT: global workspace via synchrony. *)
Definition gwt (spike_data : dict) (n sync gamma_power : pyval) : result dict :=
  c <- py_gt sync (PFloat 0.5) ;;
  has_broadcast <- (if c then py_gt n (PInt 500) else Ok false) ;;
  c <- py_gt gamma_power (PFloat 0.4) ;;
  ignition <- (if c then py_gt sync (PFloat 0.6) else Ok false) ;;
  let t1 := if has_broadcast then PFloat 0.4 else PInt 0 in
  let t2 := if ignition then PFloat 0.3 else PInt 0 in
  s <- py_add t1 t2 ;;
  t3 <- py_mul (PFloat 0.3) (get spike_data "information_transfer" (PInt 0)) ;;
  s <- py_add s t3 ;;
  gwt_score <- py_min (PFloat 1.0) s ;;
  score <- py_round gwt_score 3 ;;
  Ok [("global_broadcast", PBool has_broadcast);
      ("ignition_detected", PBool ignition);
      ("information_transfer", get spike_data "information_transfer" (PInt 0));
      ("score", score)].

(** HOT: higher-order thought. *)
Definition hot (spike_data : dict) (rec alpha_power : pyval) : result dict :=
  c <- py_gt rec (PInt 4) ;;
  let has_hierarchy :=
    if c then get spike_data "has_top_down_connections" (PBool false)
    else PBool false in
  let t1 := if truthy has_hierarchy then PFloat 0.4 else PInt 0 in
  let t2 :=
    if truthy (get spike_data "has_lateral_inhibition" PNone)
    then PFloat 0.3 else PInt 0 in
  s <- py_add t1 t2 ;;
  c3 <- py_gt alpha_power (PInt 0) ;;
  t3 <- (if c3 then
           r <- py_div alpha_power (PFloat 0.5) ;;
           m <- py_min (PInt 1) r ;;
           py_mul (PFloat 0.3) m
         else Ok (PInt 0)) ;;
  s <- py_add s t3 ;;
  hot_score <- py_min (PFloat 1.0) s ;;
  a <- py_gt alpha_power (PFloat 0.2) ;;
  score <- py_round hot_score 3 ;;
  Ok [("hierarchical_processing", has_hierarchy);
      ("lateral_inhibition", get spike_data "has_lateral_inhibition" (PBool false));
      ("alpha_modulation", PBool a);
      ("score", score)].

(** PP: predictive processing. *)
Definition pp (spike_data : dict) (theta_power : pyval) : result dict :=
  let has_stdp := get spike_data "has_synaptic_plasticity" (PBool false) in
  let t1 := if truthy has_stdp then PFloat 0.4 else PInt 0 in
  let t2 :=
    if truthy (get spike_data "has_top_down_connections" PNone)
    then PFloat 0.3 else PInt 0 in
  s <- py_add t1 t2 ;;
  c3 <- py_gt theta_power (PInt 0) ;;
  t3 <- (if c3 then
           r <- py_div theta_power (PFloat 0.5) ;;
           m <- py_min (PInt 1) r ;;
           py_mul (PFloat 0.3) m
         else Ok (PInt 0)) ;;
  s <- py_add s t3 ;;
  pp_score <- py_min (PFloat 1.0) s ;;
  t <- py_gt theta_power (PFloat 0.2) ;;
  score <- py_round pp_score 3 ;;
  Ok [("synaptic_plasticity", has_stdp);
      ("top_down_predictions", get spike_data "has_top_down_connections" (PBool false));
      ("theta_oscillations", PBool t);
      ("score", score)].

(** AST: attention schema. *)
Definition ast (spike_data : dict) (sync : pyval) : result dict :=
  let li := get spike_data "has_lateral_inhibition" (PBool false) in
  has_attention <- (if truthy li then
                      c <- py_gt sync (PFloat 0.3) ;; Ok (PBool c)
                    else Ok li) ;;
  let t1 := if truthy has_attention then PFloat 0.5 else PInt 0 in
  let t2 :=
    if truthy (get spike_data "has_attention_mechanism" (PBool false))
    then PFloat 0.5 else PInt 0 in
  s <- py_add t1 t2 ;;
  ast_score <- py_min (PFloat 1.0) s ;;
  score <- py_round ast_score 3 ;;
  Ok [("attention_mechanism", has_attention);
      ("attention_schema", get spike_data "has_attention_mechanism" (PBool false));
      ("score", score)].

Definition THEORIES : list string := ["RPT"; "GWT"; "HOT"; "PP"; "AST"].

(** The [indicators] dictionary (source lines 52 to 132). *)
Definition indicators_of (spike_data : dict) : result dict :=
  let n := get spike_data "n_neurons" (PInt 0) in
  let sync := get spike_data "synchrony_index" (PInt 0) in
  let rec := get spike_data "recurrence_depth" (PInt 0) in
  let oscillations := get spike_data "population_oscillations" (PDict []) in
  gamma_power <- attr_get oscillations "gamma" (PInt 0) ;;
  theta_power <- attr_get oscillations "theta" (PInt 0) ;;
  alpha_power <- attr_get oscillations "alpha" (PInt 0) ;;
  RPT <- rpt spike_data rec gamma_power ;;
  GWT <- gwt spike_data n sync gamma_power ;;
  HOT <- hot spike_data rec alpha_power ;;
  PP <- pp spike_data theta_power ;;
  AST <- ast spike_data sync ;;
  Ok [("RPT", PDict RPT); ("GWT", PDict GWT); ("HOT", PDict HOT);
      ("PP", PDict PP); ("AST", PDict AST)].

(** ** Aggregation *)

Definition weights : list pyval :=
  [PFloat 0.20; PFloat 0.25; PFloat 0.20;
   PFloat 0.20; PFloat 0.15].

(** [[indicators[t]["score"] for t in THEORIES]] *)
Fixpoint scores_of (indicators : dict) (ts : list string) : result (list pyval) :=
  match ts with
  | [] => Ok []
  | t :: ts' =>
      ind <- getitem (PDict indicators) t ;;
      s <- getitem ind "score" ;;
      rest <- scores_of indicators ts' ;;
      Ok (s :: rest)
  end.

(** [sum(s * w for s, w in zip(scores, weights))], from the start value
    [acc]; [sum] starts at the integer [0]. *)
Fixpoint weighted_sum (acc : pyval) (sw : list (pyval * pyval)) : result pyval :=
  match sw with
  | [] => Ok acc
  | (s, w) :: sw' =>
      p <- py_mul s w ;;
      acc' <- py_add acc p ;;
      weighted_sum acc' sw'
  end.

(** [sum(1 for k, v in d.items() if k != "score" and v is True)] *)
Fixpoint count_true (d : dict) : nat :=
  match d with
  | [] => O
  | (k, v) :: d' =>
      ((if negb (String.eqb k "score") && is_True v then 1 else 0)
       + count_true d')%nat
  end.

Fixpoint total_indicators (indicators : dict) (ts : list string) : result nat :=
  match ts with
  | [] => Ok O
  | t :: ts' =>
      ind <- getitem (PDict indicators) t ;;
      c <- match ind with
           | PDict d => Ok (count_true d)
           | _ => Raise AttributeError
           end ;;
      rest <- total_indicators indicators ts' ;;
      Ok (c + rest)%nat
  end.

(** The [summary] dictionary (source lines 134 to 142 and 153 to 156). *)
Definition summary_of (indicators : dict) : result dict :=
  scores <- scores_of indicators THEORIES ;;
  credence <- weighted_sum (PInt 0) (combine scores weights) ;;
  total_ind <- total_indicators indicators THEORIES ;;
  c100 <- py_mul credence (PInt 100) ;;
  rounded <- py_round c100 1 ;;
  Ok [("credence", rounded);
      ("satisfied_indicators", PStr (str_of_nat total_ind ++ "/14"))].

(** The assessment before its [proof] entry is attached (source lines
    144 to 157); [now] is [datetime.now(timezone.utc).isoformat()]. *)
Definition assessment_of (now : string) (spike_data : dict) : result dict :=
  let n := get spike_data "n_neurons" (PInt 0) in
  let sync := get spike_data "synchrony_index" (PInt 0) in
  let rate := get spike_data "mean_firing_rate" (PInt 0) in
  let oscillations := get spike_data "population_oscillations" (PDict []) in
  indicators <- indicators_of spike_data ;;
  summary <- summary_of indicators ;;
  Ok [("timestamp", PStr now);
      ("snn_config",
       PDict [("n_neurons", n);
              ("mean_firing_rate_hz", rate);
              ("synchrony", sync);
              ("oscillation_bands", oscillations)]);
      ("indicators", PDict indicators);
      ("summary", PDict summary)].

(** ** The assessor and its provenance log *)

Record assessor : Type := {
  assessments : list dict;
  proof_chain : list string
}.

(** [SNNConsciousnessAssessor.__init__] *)
Definition init : assessor :=
  {| assessments := []; proof_chain := ["GENESIS"] |}.

(** A method body: it reads and writes the object's fields and may
    raise; what was written before an exception stays written. *)
Definition method (A : Type) : Type := assessor -> result A * assessor.

Definition mret {A : Type} (a : A) : method A := fun self => (Ok a, self).

Definition mbind {A B : Type} (m : method A) (f : A -> method B) : method B :=
  fun self =>
    match m self with
    | (Ok a, self') => f a self'
    | (Raise e, self') => (Raise e, self')
    end.

Definition lift {A : Type} (r : result A) : method A := fun self => (r, self).

Notation "x <~ m ;; k" := (mbind m (fun x => k))
  (at level 61, m at next level, right associativity).

(** [self.proof_chain.append(h)] *)
Definition proof_chain_append (h : string) : method unit :=
  fun self =>
    (Ok tt, {| assessments := assessments self;
               proof_chain := proof_chain self ++ [h] |}).

(** [self.assessments.append(a)] *)
Definition assessments_append (a : dict) : method unit :=
  fun self =>
    (Ok tt, {| assessments := assessments self ++ [a];
               proof_chain := proof_chain self |}).

Section Assessor.

(** [json.dumps(v, sort_keys=True, default=str)], [None] when it
    raises, and [hashlib.sha256(s.encode()).hexdigest()]. *)
Variable json_dumps : pyval -> option string.
Variable sha256_hexdigest : string -> string.

(** Source lines 159 to 161. *)
Definition proof_hash_of (assessment : dict) : result string :=
  match json_dumps (PDict assessment) with
  | Some s => Ok (substring 0 32 (sha256_hexdigest s))
  | None => Raise SerializationError
  end.

(** The method: [assessment_of] is its pure part (source lines 52 to
    157), what follows are source lines 159 to 166. *)
Definition assess_from_spikes (now : string) (spike_data : dict)
  : method dict :=
  assessment <~ lift (assessment_of now spike_data) ;;
  proof_hash <~ lift (proof_hash_of assessment) ;;
  _ <~ proof_chain_append proof_hash ;;
  let assessment :=
    dict_set "proof" (PStr ("sha256:" ++ proof_hash)) assessment in
  _ <~ assessments_append assessment ;;
  mret assessment.

(** A sequence of calls on one assessor, each with its clock reading
    and its input; the results are returned in call order. *)
Fixpoint run (self : assessor) (calls : list (string * dict))
  : list (result dict) * assessor :=
  match calls with
  | [] => ([], self)
  | (now, spike_data) :: calls' =>
      let (r, self') := assess_from_spikes now spike_data self in
      let (rs, self'') := run self' calls' in
      (r :: rs, self'')
  end.

End Assessor.

Definition is_Ok {A : Type} (r : result A) : bool :=
  match r with
  | Ok _ => true
  | Raise _ => false
  end.

Definition successes {A : Type} (rs : list (result A)) : nat :=
  List.length (filter is_Ok rs).

(** [EIRABridge.status]: the bridge keeps a reference to the assessor,
    so [status] reads the assessor as it is at the time of the call. *)
Definition status (self : assessor) : dict :=
  [("module", PStr "ORION-Brian2-Consciousness");
   ("assessments", PInt (Z.of_nat (List.length (assessments self))));
   ("capabilities",
    PList [PStr "snn_consciousness_assessment"; PStr "spike_train_analysis";
           PStr "oscillation_mapping"; PStr "14_indicator_assessment"])].

(** ** Inputs of the documented shape *)

Definition is_int (v : pyval) : bool :=
  match v with PInt _ => true | _ => false end.

Definition is_float (v : pyval) : bool :=
  match v with PFloat _ => true | _ => false end.

Definition is_bool (v : pyval) : bool :=
  match v with PBool _ => true | _ => false end.

Definition int_fields : list string := ["n_neurons"; "recurrence_depth"].

Definition real_fields : list string :=
  ["synchrony_index"; "mean_firing_rate"; "information_transfer"].

Definition bool_fields : list string :=
  ["network_recurrence"; "has_ei_balance"; "has_synaptic_plasticity";
   "has_lateral_inhibition"; "has_top_down_connections";
   "has_attention_mechanism"].

Definition mem (k : string) (ks : list string) : bool :=
  existsb (String.eqb k) ks.

(** The type a documented field must have when it is present: integers
    are [int], real numbers are [float], flags are [bool], and
    [population_oscillations] maps band names to [float] powers.
    Other keys are not read and are left free. *)
Definition field_ok (k : string) (v : pyval) : bool :=
  if mem k int_fields then is_int v
  else if mem k real_fields then is_float v
  else if mem k bool_fields then is_bool v
  else if String.eqb k "population_oscillations" then
    match v with
    | PDict bands => forallb (fun kv => is_float (snd kv)) bands
    | _ => false
    end
  else true.

Definition shape_ok (spike_data : dict) : bool :=
  forallb (fun kv => field_ok (fst kv) (snd kv)) spike_data.

(** Values on which [json.dumps] has nothing to stringify and no key
    to reject: [None], booleans, numbers, strings, and lists and
    string-keyed dicts of such values. *)
Fixpoint json_plain (v : pyval) : bool :=
  match v with
  | PList l => forallb json_plain l
  | PDict d =>
      (fix entries (d : list (string * pyval)) : bool :=
         match d with
         | [] => true
         | (_, x) :: d' => json_plain x && entries d'
         end) d
  | PObj _ => false
  | _ => true
  end.






(** * Notions used in the statements *)

(** ** Numbers *)

(** A proper number: an [int] or a [float], not a [bool]. *)
Definition number (v : pyval) : Prop :=
  match v with
  | PInt _ | PFloat _ => True
  | _ => False
  end.

(** The real number a value denotes. *)
Definition nv (v : pyval) : Q :=
  match as_num v with
  | Some x => num_Q x
  | None => 0
  end.

Definition in_range (lo hi : Q) (v : pyval) : Prop :=
  number v /\ lo <= nv v /\ nv v <= hi.

(** [a == b] on numbers. *)
Definition py_num_eq (a b : pyval) : bool :=
  match as_num a, as_num b with
  | Some x, Some y => Qeq_bool (num_Q x) (num_Q y)
  | _, _ => false
  end.

(** ** Entries of an assessment *)

(** [indicators[theory][key]], [None] when there is no such entry. *)
Definition signal (indicators : dict) (tk : string * string) : pyval :=
  match dict_get (fst tk) indicators with
  | Some (PDict t) => get t (snd tk) PNone
  | _ => PNone
  end.

(** [assessment["indicators"][theory][key]],
    [assessment["indicators"][theory]["score"]] and
    [assessment["summary"][key]], [None] when absent. *)
Definition indicator_entry (assessment : dict) (theory key : string) : pyval :=
  match dict_get "indicators" assessment with
  | Some (PDict ind) => signal ind (theory, key)
  | _ => PNone
  end.

Definition score_of (assessment : dict) (theory : string) : pyval :=
  indicator_entry assessment theory "score".

Definition summary_entry (assessment : dict) (key : string) : pyval :=
  match dict_get "summary" assessment with
  | Some (PDict sm) => get sm key PNone
  | _ => PNone
  end.

Definition scores_in_unit_interval (assessment : dict) : Prop :=
  forall t, In t THEORIES -> in_range 0 1 (score_of assessment t).

Definition credence_in_range (assessment : dict) : Prop :=
  in_range 0 100 (summary_entry assessment "credence").

(** The dictionary assembled at source lines 144 to 157, from the input
    and from the indicators and the summary computed so far. *)
Definition pre_proof (now : string) (d ind sm : dict) : dict :=
  [("timestamp", PStr now);
   ("snn_config",
    PDict [("n_neurons", get d "n_neurons" (PInt 0));
           ("mean_firing_rate_hz", get d "mean_firing_rate" (PInt 0));
           ("synchrony", get d "synchrony_index" (PInt 0));
           ("oscillation_bands",
            get d "population_oscillations" (PDict []))]);
   ("indicators", PDict ind);
   ("summary", PDict sm)].

(** The state after a successful call that built [pre] and hashed it
    to [h]. *)
Definition logged (self : assessor) (pre : dict) (h : string) : assessor :=
  {| assessments :=
       assessments self ++ [dict_set "proof" (PStr ("sha256:" ++ h)) pre];
     proof_chain := proof_chain self ++ [h] |}.

(** ** The boolean sub-signals *)

(** The twelve sub-signals of the five indicators that hold a truth
    value, by theory and key. *)
Definition boolean_signals : list (string * string) :=
  [("RPT", "recurrent_processing"); ("RPT", "gamma_oscillations");
   ("GWT", "global_broadcast"); ("GWT", "ignition_detected");
   ("HOT", "hierarchical_processing"); ("HOT", "lateral_inhibition");
   ("HOT", "alpha_modulation");
   ("PP", "synaptic_plasticity"); ("PP", "top_down_predictions");
   ("PP", "theta_oscillations");
   ("AST", "attention_mechanism"); ("AST", "attention_schema")].

(** How many of the given sub-signals are the boolean [True]. *)
Definition true_among (indicators : dict) (tks : list (string * string)) : nat :=
  list_sum
    (map (fun tk => if is_True (signal indicators tk) then 1%nat else 0%nat)
       tks).

Definition true_signals (indicators : dict) : nat :=
  true_among indicators boolean_signals.

(** The count in [satisfied_indicators] is the number of the twelve
    boolean sub-signals that are [True]; the two numeric sub-signals are
    never [True]; the count is at most 12 and the entry is never
    ["14/14"]. *)
Definition numerator_counts_booleans (assessment : dict) : Prop :=
  exists ind,
    dict_get "indicators" assessment = Some (PDict ind) /\
    summary_entry assessment "satisfied_indicators"
    = PStr (str_of_nat (true_signals ind) ++ "/14") /\
    is_True (signal ind ("RPT", "feedback_depth")) = false /\
    is_True (signal ind ("GWT", "information_transfer")) = false /\
    (true_signals ind <= 12)%nat /\
    summary_entry assessment "satisfied_indicators" <> PStr "14/14".

(** ** Defaults *)







(** ** What the proofs keep track of *)

(** What the blocks need of an input: the numeric fields they read are
    numbers once the defaults are in place, and the oscillations are a
    dictionary. *)
Definition numeric_inputs (d : dict) : Prop :=
  number (get d "n_neurons" (PInt 0)) /\
  number (get d "synchrony_index" (PInt 0)) /\
  number (get d "recurrence_depth" (PInt 0)) /\
  number (get d "information_transfer" (PInt 0)) /\
  exists bands,
    get d "population_oscillations" (PDict []) = PDict bands /\
    number (get bands "gamma" (PInt 0)) /\
    number (get bands "theta" (PInt 0)) /\
    number (get bands "alpha" (PInt 0)).

(** The indicators computed from a numeric input: their layout, and what
    is known of each score. *)
Definition indicators_shape (d ind : dict) : Prop :=
  exists g s1 b i s2 h a s3 t s4 att s5,
    ind =
      [("RPT",
        PDict [("recurrent_processing",
                get d "network_recurrence" (PBool false));
               ("feedback_depth", get d "recurrence_depth" (PInt 0));
               ("gamma_oscillations", PBool g);
               ("score", s1)]);
       ("GWT",
        PDict [("global_broadcast", PBool b);
               ("ignition_detected", PBool i);
               ("information_transfer",
                get d "information_transfer" (PInt 0));
               ("score", s2)]);
       ("HOT",
        PDict [("hierarchical_processing", h);
               ("lateral_inhibition",
                get d "has_lateral_inhibition" (PBool false));
               ("alpha_modulation", PBool a);
               ("score", s3)]);
       ("PP",
        PDict [("synaptic_plasticity",
                get d "has_synaptic_plasticity" (PBool false));
               ("top_down_predictions",
                get d "has_top_down_connections" (PBool false));
               ("theta_oscillations", PBool t);
               ("score", s4)]);
       ("AST",
        PDict [("attention_mechanism", att);
               ("attention_schema",
                get d "has_attention_mechanism" (PBool false));
               ("score", s5)])]
    /\ (number s1 /\ 0 <= nv s1 /\ nv s1 <= 1)
    /\ (number s2 /\ nv s2 <= 1 /\
        (0 <= nv (get d "information_transfer" (PInt 0)) -> 0 <= nv s2))
    /\ (number s3 /\ 0 <= nv s3 /\ nv s3 <= 1)
    /\ (number s4 /\ 0 <= nv s4 /\ nv s4 <= 1)
    /\ (number s5 /\ 0 <= nv s5 /\ nv s5 <= 1)
    /\ (h = PBool false \/ h = get d "has_top_down_connections" (PBool false))
    /\ (att = get d "has_lateral_inhibition" (PBool false) \/
        exists c, att = PBool c).

(** ** Concrete inputs and stand-ins *)

(** The scenario of the module's entry point, restricted to the fields
    the specification lists. *)
Definition demo_input : dict :=
  [("n_neurons", PInt 10000);
   ("synchrony_index", PFloat 0.55);
   ("mean_firing_rate", PFloat 15.0);
   ("network_recurrence", PBool true);
   ("recurrence_depth", PInt 6);
   ("has_synaptic_plasticity", PBool true);
   ("has_lateral_inhibition", PBool true);
   ("has_top_down_connections", PBool true);
   ("has_attention_mechanism", PBool false);
   ("population_oscillations",
    PDict [("gamma", PFloat 0.45); ("theta", PFloat 0.35);
           ("alpha", PFloat 0.30)]);
   ("information_transfer", PFloat 0.40)].

Definition negative_transfer : dict :=
  [("information_transfer", PFloat (-1))].


(** [mean_firing_rate] is only echoed into [snn_config], so an object
    there reaches the serialiser. *)
Definition unserializable_input : dict := [("mean_firing_rate", PObj 0)].

(** Every flag set and every threshold passed. *)
Definition saturated_input : dict :=
  [("n_neurons", PInt 10000);
   ("synchrony_index", PFloat 0.9);
   ("recurrence_depth", PInt 6);
   ("network_recurrence", PBool true);
   ("has_synaptic_plasticity", PBool true);
   ("has_lateral_inhibition", PBool true);
   ("has_top_down_connections", PBool true);
   ("has_attention_mechanism", PBool true);
   ("population_oscillations",
    PDict [("gamma", PFloat 0.5); ("theta", PFloat 0.5);
           ("alpha", PFloat 0.5)]);
   ("information_transfer", PFloat 1.0)].

(** Stand-ins for the two library functions and for the clock, used to
    run the assessor on concrete inputs: serialisation succeeds exactly
    on plain values, and the digest is a fixed string of 64 hexadecimal
    characters. *)
Definition sample_dumps (v : pyval) : option string :=
  if json_plain v then Some "{}" else None.



Definition sample_sha256 (s : string) : string :=
  "44136fa355b3678a1146ad16f7e8649e94fb4fc21fe77e8310c060f61caaff8a".

Definition sample_now : string := "2026-01-01T00:00:00+00:00".

Definition later_now : string := "2026-01-02T12:30:00+00:00".

(** The entry point's call on a fresh assessor, and a second call with
    the same input, later, on the assessor that has logged the first. *)
Definition demo_call : result dict * assessor :=
  assess_from_spikes sample_dumps sample_sha256 sample_now demo_input init.

Definition demo_assessment : dict :=
  Eval vm_compute in
    match fst demo_call with
    | Ok a => a
    | Raise _ => []
    end.

Definition demo_after : assessor := Eval vm_compute in snd demo_call.

Definition demo_assessment_again : dict :=
  Eval vm_compute in
    match fst (assess_from_spikes sample_dumps sample_sha256 later_now
                 demo_input demo_after) with
    | Ok a => a
    | Raise _ => []
    end.

Definition demo_after_again : assessor :=
  Eval vm_compute in
    snd (assess_from_spikes sample_dumps sample_sha256 later_now
           demo_input demo_after).

(** ** Notions for the further properties *)

(** The keys [assess_from_spikes] reads from its input. *)
Definition read_keys : list string :=
  ["n_neurons"; "synchrony_index"; "mean_firing_rate"; "recurrence_depth";
   "population_oscillations"; "network_recurrence";
   "has_top_down_connections"; "has_lateral_inhibition";
   "has_synaptic_plasticity"; "has_attention_mechanism";
   "information_transfer"].

(** A computation that, when it raises, raises [TypeError]. *)
Definition raises_only_TypeError {A : Type} (r : result A) : Prop :=
  match r with
  | Ok _ => True
  | Raise e => e = TypeError
  end.

(** The layout of the indicators whatever the input was: the keys of the
    five blocks in order, each score a number. *)
Definition indicators_layout (ind : dict) : Prop :=
  exists x1 y1 z1 s1 x2 y2 z2 s2 x3 y3 z3 s3 x4 y4 z4 s4 x5 y5 s5,
    ind =
      [("RPT",
        PDict [("recurrent_processing", x1); ("feedback_depth", y1);
               ("gamma_oscillations", z1); ("score", s1)]);
       ("GWT",
        PDict [("global_broadcast", x2); ("ignition_detected", y2);
               ("information_transfer", z2); ("score", s2)]);
       ("HOT",
        PDict [("hierarchical_processing", x3); ("lateral_inhibition", y3);
               ("alpha_modulation", z3); ("score", s3)]);
       ("PP",
        PDict [("synaptic_plasticity", x4); ("top_down_predictions", y4);
               ("theta_oscillations", z4); ("score", s4)]);
       ("AST",
        PDict [("attention_mechanism", x5); ("attention_schema", y5);
               ("score", s5)])]
    /\ number s1 /\ number s2 /\ number s3 /\ number s4 /\ number s5.

(** An [int] small enough to convert to a [float]: beyond that range
    Python raises [OverflowError] on the conversion, which the exact
    arithmetic used here does not have. *)
Definition float_range (v : pyval) : Prop :=
  match v with
  | PInt z => (Z.abs z < 2 ^ 1023)%Z
  | _ => True
  end.

(** An [information_transfer] of magnitude at most [10 ^ 300]: the
    weighted sum of the scores, times 100, then stays within the range
    of a [float].  Far below, the credence of the source is an
    infinity, which the exact arithmetic used here does not have. *)
Definition transfer_bounded (spike_data : dict) : Prop :=
  let x := nv (get spike_data "information_transfer" (PInt 0)) in
  (- inject_Z (10 ^ 300) <= x /\ x <= inject_Z (10 ^ 300))%Q.

(** Inputs on which the call raises before it computes anything. *)
Definition oscillations_none : dict := [("population_oscillations", PNone)].

Definition depth_none : dict := [("recurrence_depth", PNone)].

(** Two results of [assessment_of] that score alike: both raise the
    same error, or both are assessments with the same indicators and the
    same summary. *)
Definition same_scoring (r1 r2 : result dict) : Prop :=
  match r1, r2 with
  | Ok a1, Ok a2 =>
      dict_get "indicators" a1 = dict_get "indicators" a2 /\
      dict_get "summary" a1 = dict_get "summary" a2
  | Raise e1, Raise e2 => e1 = e2
  | _, _ => False
  end.

(** The entry point's input as the source has it, with the three fields
    the method does not read. *)
Definition main_input : dict :=
  dict_set "has_ei_balance" (PBool true)
    (dict_set "n_inhibitory" (PInt 2000)
       (dict_set "n_excitatory" (PInt 8000) demo_input)).

(** Low synchrony and a malformed neuron count. *)
Definition quiet_input : dict :=
  [("synchrony_index", PFloat 0.2); ("n_neurons", PInt 100)].

(** [a > b] on numbers. *)
Definition gt (a b : pyval) : bool := Qltb (nv b) (nv a).

(** The sub-signals of the five indicators as functions of the input
    with its defaults in place; the scores are left open. *)
Definition indicators_exact (d ind : dict) : Prop :=
  exists bands s1 s2 s3 s4 s5,
    get d "population_oscillations" (PDict []) = PDict bands /\
    let n := get d "n_neurons" (PInt 0) in
    let sync := get d "synchrony_index" (PInt 0) in
    let rec := get d "recurrence_depth" (PInt 0) in
    let gamma := get bands "gamma" (PInt 0) in
    let theta := get bands "theta" (PInt 0) in
    let alpha := get bands "alpha" (PInt 0) in
    let top_down := get d "has_top_down_connections" (PBool false) in
    let lateral := get d "has_lateral_inhibition" (PBool false) in
    ind =
      [("RPT",
        PDict [("recurrent_processing",
                get d "network_recurrence" (PBool false));
               ("feedback_depth", rec);
               ("gamma_oscillations", PBool (gt gamma (PFloat 0.2)));
               ("score", s1)]);
       ("GWT",
        PDict [("global_broadcast",
                PBool (gt sync (PFloat 0.5) && gt n (PInt 500)));
               ("ignition_detected",
                PBool (gt gamma (PFloat 0.4) && gt sync (PFloat 0.6)));
               ("information_transfer",
                get d "information_transfer" (PInt 0));
               ("score", s2)]);
       ("HOT",
        PDict [("hierarchical_processing",
                if gt rec (PInt 4) then top_down else PBool false);
               ("lateral_inhibition", lateral);
               ("alpha_modulation", PBool (gt alpha (PFloat 0.2)));
               ("score", s3)]);
       ("PP",
        PDict [("synaptic_plasticity",
                get d "has_synaptic_plasticity" (PBool false));
               ("top_down_predictions", top_down);
               ("theta_oscillations", PBool (gt theta (PFloat 0.2)));
               ("score", s4)]);
       ("AST",
        PDict [("attention_mechanism",
                if truthy lateral then PBool (gt sync (PFloat 0.3))
                else lateral);
               ("attention_schema",
                get d "has_attention_mechanism" (PBool false));
               ("score", s5)])]
    /\ (s5 = PInt 0 \/ s5 = PFloat (1 # 2) \/ s5 = PFloat 1).

(** Every score but GWT's is in [0, 1]; GWT's and the credence are
    capped above. *)
Definition capped (assessment : dict) : Prop :=
  in_range 0 1 (score_of assessment "RPT") /\
  in_range 0 1 (score_of assessment "HOT") /\
  in_range 0 1 (score_of assessment "PP") /\
  in_range 0 1 (score_of assessment "AST") /\
  number (score_of assessment "GWT") /\
  nv (score_of assessment "GWT") <= 1 /\
  number (summary_entry assessment "credence") /\
  nv (summary_entry assessment "credence") <= 100.

(** The call with [information_transfer = -1.0] on a fresh assessor. *)
Definition negative_assessment : dict :=
  Eval vm_compute in
    match fst (assess_from_spikes sample_dumps sample_sha256 sample_now
                 negative_transfer init) with
    | Ok a => a
    | Raise _ => []
    end.

Definition negative_after : assessor :=
  Eval vm_compute in
    snd (assess_from_spikes sample_dumps sample_sha256 sample_now
           negative_transfer init).

(** The assessments a sequence of calls returned, in call order. *)
Fixpoint returned (rs : list (result dict)) : list dict :=
  match rs with
  | [] => []
  | Ok a :: rs' => a :: returned rs'
  | Raise _ :: rs' => returned rs'
  end.

(** [assessment.get("proof")] *)
Definition proof_entry (assessment : dict) : pyval :=
  get assessment "proof" PNone.

(** Three calls on one assessor: the entry point's input, an input the
    serialiser rejects, and the empty input. *)
Definition three_calls : list (string * dict) :=
  [(sample_now, demo_input);
   (later_now, unserializable_input);
   (later_now, [])].

(** [q] rounded half to even at the given decimal place, and the
    numbers with at most that many decimals. *)
Definition round_to (q : Q) (ndigits : nat) : Q :=
  round_half_even (q * inject_Z (Zpos (pow10 ndigits))) # pow10 ndigits.

Definition decimals (ndigits : nat) (v : pyval) : Prop :=
  exists k : Z, nv v == k # pow10 ndigits.

(** The input with [information_transfer] set to the float [x]. *)
Definition with_transfer (x : Q) (d : dict) : dict :=
  dict_set "information_transfer" (PFloat x) d.

(** ** The two scores of the entry point's scenario in binary64

    The blocks above compute with exact rationals.  For the RPT and GWT
    blocks, the same expressions over IEEE doubles, on typed inputs and
    before [round(., 3)], serve to compare the two arithmetics on the
    values the entry point passes.  The integer [0] of the source is the
    double [0] here, as Python converts it in a mixed sum. *)

Module Binary64.

Import PrimFloat.

#[local] Set Warnings "-inexact-float".

Local Open Scope float_scope.

(** [min(a, b)] *)
Definition fmin (a b : float) : float := if b <? a then b else a.

(** Source lines 66 to 71, with [deep] for [rec > 3]. *)
Definition rpt_score (has_rec deep top_down : bool) (gamma_power : float)
  : float :=
  fmin 1.0
    ((if has_rec then 0.3 else 0) +
     (if deep then 0.2 else 0) +
     (if top_down then 0.2 else 0) +
     (if 0 <? gamma_power then 0.3 * fmin 1 (gamma_power / 0.5) else 0)).

(** Source lines 82 to 86. *)
Definition gwt_score (has_broadcast ignition : bool)
           (information_transfer : float) : float :=
  fmin 1.0
    ((if has_broadcast then 0.4 else 0) +
     (if ignition then 0.3 else 0) +
     0.3 * information_transfer).

End Binary64.

(** * Properties *)

(** ** Numbers and the primitives on them *)

#[local] Arguments Qred : simpl never.
#[local] Arguments Qdiv : simpl never.
#[local] Arguments Qmult : simpl never.
#[local] Arguments Qplus : simpl never.

Lemma Qltb_true (x y : Q) : Qltb x y = true <-> x < y.
Proof.
  unfold Qltb. rewrite negb_true_iff, <- not_true_iff_false, Qle_bool_iff.
  split; [apply Qnot_le_lt | apply Qlt_not_le].
Qed.

Lemma Qltb_false (x y : Q) : Qltb x y = false <-> y <= x.
Proof.
  unfold Qltb. rewrite negb_false_iff. apply Qle_bool_iff.
Qed.

Lemma number_not_True (v : pyval) : number v -> is_True v = false.
Proof. destruct v; simpl; intros H; try reflexivity; contradiction. Qed.

Lemma py_gt_number (a b : pyval) :
  number a -> number b -> py_gt a b = Ok (Qltb (nv b) (nv a)).
Proof. destruct a, b; simpl; intros; try contradiction; reflexivity. Qed.

Lemma py_add_number (a b : pyval) :
  number a -> number b ->
  exists v, py_add a b = Ok v /\ number v /\ nv v == nv a + nv b.
Proof.
  destruct a, b; simpl; intros; try contradiction;
    eexists; (split; [reflexivity |]); (split; [exact I |]);
    unfold nv; simpl; rewrite ?Qred_correct, ?inject_Z_plus; reflexivity.
Qed.

Lemma py_mul_number (a b : pyval) :
  number a -> number b ->
  exists v, py_mul a b = Ok v /\ number v /\ nv v == nv a * nv b.
Proof.
  destruct a, b; simpl; intros; try contradiction;
    eexists; (split; [reflexivity |]); (split; [exact I |]);
    unfold nv; simpl; rewrite ?Qred_correct, ?inject_Z_mult; reflexivity.
Qed.

Lemma py_div_number (a b : pyval) :
  number a -> number b -> ~ nv b == 0 ->
  exists v, py_div a b = Ok v /\ number v /\ nv v == nv a / nv b.
Proof.
  intros Ha Hb Hz.
  destruct a, b; simpl in Ha, Hb; try contradiction;
    unfold py_div, nv in *; cbn [as_num num_Q] in *;
    (destruct (Qeq_bool _ 0) eqn:E;
     [apply Qeq_bool_iff in E; contradiction |]);
    eexists; (split; [reflexivity |]); (split; [exact I |]);
    cbn [as_num num_Q]; rewrite ?Qred_correct; reflexivity.
Qed.

Lemma py_min_number (a b : pyval) :
  number a -> number b ->
  py_min a b = Ok (if Qltb (nv b) (nv a) then b else a).
Proof.
  intros Ha Hb. unfold py_min, py_lt.
  rewrite (py_gt_number a b Ha Hb). reflexivity.
Qed.

(** Rounding half to even stays between the integers around its
    argument. *)
Lemma round_half_even_lower (q : Q) (lo : Z) :
  inject_Z lo <= q -> (lo <= round_half_even q)%Z.
Proof.
  intros Hlo. unfold round_half_even.
  assert (Hf : (lo <= Qfloor q)%Z).
  { rewrite <- (Qfloor_Z lo). apply Qfloor_resp_le. exact Hlo. }
  destruct (q - inject_Z (Qfloor q) ?= 1 # 2);
    [destruct (Z.even (Qfloor q)) | |]; lia.
Qed.

Lemma round_half_even_upper (q : Q) (hi : Z) :
  q <= inject_Z hi -> (round_half_even q <= hi)%Z.
Proof.
  intros Hhi. unfold round_half_even.
  assert (Hc : (Qfloor q <= hi)%Z).
  { rewrite <- (Qfloor_Z hi). apply Qfloor_resp_le. exact Hhi. }
  assert (Hs : 1 # 2 <= q - inject_Z (Qfloor q) -> (Qfloor q + 1 <= hi)%Z).
  { intros Hge.
    destruct (Z.eq_dec (Qfloor q) hi) as [E | NE]; [| lia].
    exfalso. rewrite E in Hge. lra. }
  destruct (q - inject_Z (Qfloor q) ?= 1 # 2) eqn:C.
  - apply Qeq_alt in C.
    assert (H : (Qfloor q + 1 <= hi)%Z) by (apply Hs; lra).
    destruct (Z.even (Qfloor q)); lia.
  - lia.
  - apply Qgt_alt in C. apply Hs. lra.
Qed.

Lemma py_round_number (v : pyval) (ndigits : nat) :
  number v ->
  exists r, py_round v ndigits = Ok r /\ number r /\
    (forall lo : Z, inject_Z lo <= nv v -> inject_Z lo <= nv r) /\
    (forall hi : Z, nv v <= inject_Z hi -> nv r <= inject_Z hi).
Proof.
  destruct v; simpl; intros Hv; try contradiction.
  - exists (PInt z). repeat split; auto.
  - eexists. split; [reflexivity |]. split; [exact I |].
    unfold nv; cbn [as_num num_Q].
    set (s := pow10 ndigits).
    assert (Hs : 0 < inject_Z (Zpos s)) by (unfold Qlt; simpl; lia).
    split.
    + intros lo Hlo.
      pose proof (round_half_even_lower (q * inject_Z (Zpos s)) (lo * Zpos s))
        as H1.
      rewrite Qred_correct. unfold Qle; simpl.
      assert (lo * Z.pos s <= round_half_even (q * inject_Z (Z.pos s)))%Z.
      { apply H1. rewrite inject_Z_mult.
        apply Qmult_le_compat_r; [exact Hlo | lra]. }
      nia.
    + intros hi Hhi.
      pose proof (round_half_even_upper (q * inject_Z (Zpos s)) (hi * Zpos s))
        as H1.
      rewrite Qred_correct. unfold Qle; simpl.
      assert (round_half_even (q * inject_Z (Z.pos s)) <= hi * Z.pos s)%Z.
      { apply H1. rewrite inject_Z_mult.
        apply Qmult_le_compat_r; [exact Hhi | lra]. }
      nia.
Qed.

(** ** The theory blocks on numeric inputs *)

Lemma number_if (c : bool) (a b : pyval) :
  number a -> number b -> number (if c then a else b).
Proof. destruct c; auto. Qed.

Lemma Qdiv_half (x : Q) : x / 0.5 == 2 * x.
Proof. field. Qed.

Ltac num :=
  solve [ assumption | exact I
        | repeat apply number_if; first [assumption | exact I] ].

(** One primitive call of a block, replaced by what it returns. *)
Ltac step :=
  match goal with
  | |- context [if Qltb ?x ?y then _ else _] =>
      let C := fresh "C" in
      destruct (Qltb x y) eqn:C;
      [apply Qltb_true in C | apply Qltb_false in C]
  | |- context [if truthy ?x then _ else _] =>
      destruct (truthy x)
  | |- context [py_gt ?a ?b] =>
      rewrite (py_gt_number a b) by num
  | |- context [py_min ?a ?b] =>
      rewrite (py_min_number a b) by num
  | |- context [py_add ?a ?b] =>
      let v := fresh "v" in
      let E := fresh "E" in
      let N := fresh "N" in
      let V := fresh "V" in
      destruct (py_add_number a b) as (v & E & N & V);
      [num | num | rewrite E; clear E]
  | |- context [py_mul ?a ?b] =>
      let v := fresh "v" in
      let E := fresh "E" in
      let N := fresh "N" in
      let V := fresh "V" in
      destruct (py_mul_number a b) as (v & E & N & V);
      [num | num | rewrite E; clear E]
  | |- context [py_div ?a (PFloat 0.5)] =>
      let v := fresh "v" in
      let E := fresh "E" in
      let N := fresh "N" in
      let V := fresh "V" in
      destruct (py_div_number a (PFloat 0.5)) as (v & E & N & V);
      [num | num | discriminate | rewrite E; clear E; rewrite Qdiv_half in V]
  | |- context [py_round ?a ?n] =>
      let v := fresh "r" in
      let E := fresh "E" in
      let N := fresh "N" in
      let Rlo := fresh "Rlo" in
      let Rhi := fresh "Rhi" in
      destruct (py_round_number a n) as (v & E & N & Rlo & Rhi);
      [num | rewrite E; clear E]
  end; cbn [bind truthy].

Ltac nv_simpl := cbn [nv as_num num_Q] in *; unfold inject_Z in *.

Lemma rpt_spec (d : dict) (rec gamma : pyval) :
  number rec -> number gamma ->
  exists g s,
    rpt d rec gamma =
      Ok [("recurrent_processing", get d "network_recurrence" (PBool false));
          ("feedback_depth", rec);
          ("gamma_oscillations", PBool g);
          ("score", s)]
    /\ number s /\ 0 <= nv s /\ nv s <= 1.
Proof.
  intros Hrec Hgamma. unfold rpt. cbv zeta.
  repeat step.
  all: eexists; eexists; (split; [reflexivity |]); (split; [assumption |]).
  all: split; [apply (Rlo 0%Z) | apply (Rhi 1%Z)]; nv_simpl; lra.
Qed.

Lemma gwt_spec (d : dict) (n sync gamma : pyval) :
  number n -> number sync -> number gamma ->
  number (get d "information_transfer" (PInt 0)) ->
  exists b i s,
    gwt d n sync gamma =
      Ok [("global_broadcast", PBool b);
          ("ignition_detected", PBool i);
          ("information_transfer", get d "information_transfer" (PInt 0));
          ("score", s)]
    /\ number s /\ nv s <= 1
    /\ (0 <= nv (get d "information_transfer" (PInt 0)) -> 0 <= nv s).
Proof.
  intros Hn Hsync Hgamma Hit. unfold gwt.
  repeat step.
  all: do 3 eexists; (split; [reflexivity |]); (split; [assumption |]).
  all: split; [apply (Rhi 1%Z) | intros Hpos; apply (Rlo 0%Z)];
    nv_simpl; lra.
Qed.

Lemma hot_spec (d : dict) (rec alpha : pyval) :
  number rec -> number alpha ->
  exists h a s,
    hot d rec alpha =
      Ok [("hierarchical_processing", h);
          ("lateral_inhibition", get d "has_lateral_inhibition" (PBool false));
          ("alpha_modulation", PBool a);
          ("score", s)]
    /\ (h = PBool false \/ h = get d "has_top_down_connections" (PBool false))
    /\ number s /\ 0 <= nv s /\ nv s <= 1.
Proof.
  intros Hrec Halpha. unfold hot. cbv zeta.
  repeat step.
  all: do 3 eexists; (split; [reflexivity |]); (split; [tauto |]);
    (split; [assumption |]).
  all: split; [apply (Rlo 0%Z) | apply (Rhi 1%Z)]; nv_simpl; lra.
Qed.

Lemma pp_spec (d : dict) (theta : pyval) :
  number theta ->
  exists t s,
    pp d theta =
      Ok [("synaptic_plasticity", get d "has_synaptic_plasticity" (PBool false));
          ("top_down_predictions",
           get d "has_top_down_connections" (PBool false));
          ("theta_oscillations", PBool t);
          ("score", s)]
    /\ number s /\ 0 <= nv s /\ nv s <= 1.
Proof.
  intros Htheta. unfold pp. cbv zeta.
  repeat step.
  all: do 2 eexists; (split; [reflexivity |]); (split; [assumption |]).
  all: split; [apply (Rlo 0%Z) | apply (Rhi 1%Z)]; nv_simpl; lra.
Qed.

Lemma ast_spec (d : dict) (sync : pyval) :
  number sync ->
  exists a s,
    ast d sync =
      Ok [("attention_mechanism", a);
          ("attention_schema", get d "has_attention_mechanism" (PBool false));
          ("score", s)]
    /\ (a = get d "has_lateral_inhibition" (PBool false) \/
        exists c, a = PBool c)
    /\ number s /\ 0 <= nv s /\ nv s <= 1.
Proof.
  intros Hsync. unfold ast. cbv zeta.
  destruct (truthy (get d "has_lateral_inhibition" (PBool false))) eqn:L;
    cbn [bind].
  - repeat step.
    all: do 2 eexists; (split; [reflexivity |]);
      (split; [right; eexists; reflexivity |]); (split; [assumption |]).
    all: split; [apply (Rlo 0%Z) | apply (Rhi 1%Z)]; nv_simpl; lra.
  - rewrite L. repeat step.
    all: do 2 eexists; (split; [reflexivity |]);
      (split; [left; reflexivity |]); (split; [assumption |]).
    all: split; [apply (Rlo 0%Z) | apply (Rhi 1%Z)]; nv_simpl; lra.
Qed.

(** ** From the documented shape to numeric inputs *)

Lemma shape_ok_field (d : dict) (k : string) (v : pyval) :
  shape_ok d = true -> dict_get k d = Some v -> field_ok k v = true.
Proof.
  unfold shape_ok. induction d as [| [k' v'] d IH]; simpl; [discriminate |].
  intros H. apply andb_true_iff in H. destruct H as [H1 H2].
  destruct (String.eqb k k') eqn:E.
  - apply String.eqb_eq in E. subst k'. intros [= <-]. exact H1.
  - auto.
Qed.

Lemma bands_float (bands : dict) (k : string) :
  forallb (fun kv => is_float (snd kv)) bands = true ->
  number (get bands k (PInt 0)).
Proof.
  unfold get. induction bands as [| [k' v'] bands IH]; simpl; [auto |].
  intros H. apply andb_true_iff in H. destruct H as [H1 H2].
  destruct (String.eqb k k'); [| auto].
  destruct v'; simpl in H1; try discriminate. exact I.
Qed.

Lemma shape_ok_numeric (d : dict) : shape_ok d = true -> numeric_inputs d.
Proof.
  intros H. unfold numeric_inputs, get.
  repeat split.
  1-4: match goal with
       | |- context [dict_get ?k _] =>
           destruct (dict_get k d) as [v |] eqn:E; [| exact I];
           apply (shape_ok_field d k v H) in E;
           destruct v; try discriminate E; exact I
       end.
  destruct (dict_get "population_oscillations" d) as [v |] eqn:E.
  - apply (shape_ok_field d _ v H) in E.
    destruct v; try discriminate E.
    exists d0. split; [reflexivity |].
    change (field_ok "population_oscillations" (PDict d0))
      with (forallb (fun kv => is_float (snd kv)) d0) in E.
    repeat split; apply bands_float; exact E.
  - exists []. repeat split; exact I.
Qed.

Lemma indicators_of_numeric (d : dict) :
  numeric_inputs d ->
  exists ind, indicators_of d = Ok ind /\ indicators_shape d ind.
Proof.
  intros (Hn & Hsync & Hrec & Hit & bands & Hb & Hg & Ht & Ha).
  unfold indicators_of. cbv zeta. rewrite Hb. cbn [attr_get bind].
  destruct (rpt_spec d _ _ Hrec Hg) as (g & s1 & E1 & P1).
  destruct (gwt_spec d _ _ _ Hn Hsync Hg Hit) as (b & i & s2 & E2 & P2).
  destruct (hot_spec d _ _ Hrec Ha) as (h & a & s3 & E3 & Hh & P3).
  destruct (pp_spec d _ Ht) as (t & s4 & E4 & P4).
  destruct (ast_spec d _ Hsync) as (att & s5 & E5 & Hatt & P5).
  rewrite E1, E2, E3, E4, E5. cbn [bind].
  eexists. split; [reflexivity |].
  exists g, s1, b, i, s2, h, a, s3, t, s4, att, s5.
  repeat split; tauto.
Qed.

(** ** The summary *)

Lemma true_among_le (ind : dict) (tks : list (string * string)) :
  (true_among ind tks <= List.length tks)%nat.
Proof.
  unfold true_among. induction tks as [| tk tks IH]; simpl; [lia |].
  destruct (is_True (signal ind tk)); lia.
Qed.

Lemma true_signals_le_12 (ind : dict) : (true_signals ind <= 12)%nat.
Proof. exact (true_among_le ind boolean_signals). Qed.

Lemma summary_of_shape (d ind : dict) :
  numeric_inputs d -> indicators_shape d ind ->
  exists c,
    summary_of ind =
      Ok [("credence", c);
          ("satisfied_indicators",
           PStr (str_of_nat (true_signals ind) ++ "/14"))]
    /\ number c /\ nv c <= 100
    /\ (0 <= nv (get d "information_transfer" (PInt 0)) -> 0 <= nv c).
Proof.
  intros (_ & _ & Hrec & Hit & _)
    (g & s1 & b & i & s2 & h & a & s3 & t & s4 & att & s5 & -> &
     (N1 & L1 & U1) & (N2 & U2 & L2) & (N3 & L3 & U3) & (N4 & L4 & U4) &
     (N5 & L5 & U5) & _ & _).
  unfold summary_of.
  change (scores_of _ THEORIES) with (Ok [s1; s2; s3; s4; s5]).
  cbn [bind combine weights weighted_sum].
  repeat step.
  match goal with
  | |- context [total_indicators ?ind THEORIES] =>
      assert (T : total_indicators ind THEORIES = Ok (true_signals ind))
  end.
  { unfold true_signals, true_among.
    cbn -[is_True].
    rewrite (number_not_True _ Hrec), (number_not_True _ Hit).
    f_equal. lia. }
  rewrite T. cbn [bind].
  repeat step.
  eexists. split; [reflexivity |]. split; [assumption |].
  split; [apply (Rhi 100%Z) | intros Hpos; apply (Rlo 0%Z)]; nv_simpl.
  all: specialize (L2 Hpos) || idtac; lra.
Qed.

(** ** The assessment and the method call *)

Lemma bind_Ok {A B : Type} (m : result A) (f : A -> result B) (b : B) :
  bind m f = Ok b -> exists a, m = Ok a /\ f a = Ok b.
Proof. destruct m as [a | e]; simpl; [eauto | discriminate]. Qed.

Lemma summary_of_inv (ind sm : dict) :
  summary_of ind = Ok sm ->
  exists c k,
    sm = [("credence", c);
          ("satisfied_indicators", PStr (str_of_nat k ++ "/14"))].
Proof.
  unfold summary_of. intros H.
  repeat (apply bind_Ok in H; destruct H as (? & _ & H)).
  injection H as <-. eauto.
Qed.

Lemma assessment_of_inv (now : string) (d pre : dict) :
  assessment_of now d = Ok pre ->
  exists ind sm,
    indicators_of d = Ok ind /\ summary_of ind = Ok sm /\
    pre = pre_proof now d ind sm.
Proof.
  unfold assessment_of. cbv zeta. intros H.
  apply bind_Ok in H. destruct H as (ind & Hi & H).
  apply bind_Ok in H. destruct H as (sm & Hs & H).
  injection H as <-. exists ind, sm. auto.
Qed.

Lemma assessment_of_numeric (now : string) (d : dict) :
  numeric_inputs d ->
  exists ind c,
    assessment_of now d =
      Ok (pre_proof now d ind
            [("credence", c);
             ("satisfied_indicators",
              PStr (str_of_nat (true_signals ind) ++ "/14"))])
    /\ indicators_shape d ind
    /\ number c /\ nv c <= 100
    /\ (0 <= nv (get d "information_transfer" (PInt 0)) -> 0 <= nv c).
Proof.
  intros Hd.
  destruct (indicators_of_numeric d Hd) as (ind & Ei & Hind).
  destruct (summary_of_shape d ind Hd Hind) as (c & Es & Hc).
  exists ind, c. split; [| tauto].
  unfold assessment_of. cbv zeta. rewrite Ei. cbn [bind]. rewrite Es.
  reflexivity.
Qed.

Section AssessorFacts.

Variable json_dumps : pyval -> option string.
Variable sha256_hexdigest : string -> string.

Let assess := assess_from_spikes json_dumps sha256_hexdigest.

Lemma assess_success (self : assessor) (now : string) (d pre : dict)
      (js : string) :
  assessment_of now d = Ok pre ->
  json_dumps (PDict pre) = Some js ->
  let h := substring 0 32 (sha256_hexdigest js) in
  assess now d self =
    (Ok (dict_set "proof" (PStr ("sha256:" ++ h)) pre), logged self pre h).
Proof.
  intros Hpre Hjs. unfold assess, assess_from_spikes, mbind, lift.
  rewrite Hpre. unfold proof_hash_of. rewrite Hjs. reflexivity.
Qed.

Lemma assess_Ok_inv (self self' : assessor) (now : string) (d a : dict) :
  assess now d self = (Ok a, self') ->
  exists pre js,
    assessment_of now d = Ok pre /\
    json_dumps (PDict pre) = Some js /\
    a = dict_set "proof"
          (PStr ("sha256:" ++ substring 0 32 (sha256_hexdigest js))) pre /\
    self' = logged self pre (substring 0 32 (sha256_hexdigest js)).
Proof.
  unfold assess, assess_from_spikes, mbind, lift.
  destruct (assessment_of now d) as [pre | e]; [| discriminate].
  unfold proof_hash_of.
  destruct (json_dumps (PDict pre)) as [js |] eqn:Hjs; [| discriminate].
  cbn. intros [= <- <-]. exists pre, js. repeat split; auto.
Qed.

Lemma assess_Raise_inv (self self' : assessor) (now : string) (d : dict)
      (e : exn) :
  assess now d self = (Raise e, self') -> self' = self.
Proof.
  unfold assess, assess_from_spikes, mbind, lift.
  destruct (assessment_of now d) as [pre | e0]; [| now intros [= _ <-]].
  unfold proof_hash_of.
  destruct (json_dumps (PDict pre)) as [js |]; [| now intros [= _ <-]].
  cbn. discriminate.
Qed.

End AssessorFacts.

(** ** Scores and credence *)

Lemma score_of_pre_proof (now : string) (d ind sm : dict) (t : string) :
  score_of (pre_proof now d ind sm) t = signal ind (t, "score").
Proof. reflexivity. Qed.

Lemma score_of_proof (now : string) (d ind sm : dict) (p : pyval) (t : string) :
  score_of (dict_set "proof" p (pre_proof now d ind sm)) t
  = signal ind (t, "score").
Proof. reflexivity. Qed.

Lemma summary_entry_pre_proof (now : string) (d ind sm : dict) (k : string) :
  summary_entry (pre_proof now d ind sm) k = get sm k PNone.
Proof. reflexivity. Qed.

Lemma summary_entry_proof (now : string) (d ind sm : dict) (p : pyval)
      (k : string) :
  summary_entry (dict_set "proof" p (pre_proof now d ind sm)) k
  = get sm k PNone.
Proof. reflexivity. Qed.

Lemma indicators_shape_scores (d ind : dict) :
  indicators_shape d ind ->
  0 <= nv (get d "information_transfer" (PInt 0)) ->
  forall t, In t THEORIES -> in_range 0 1 (signal ind (t, "score")).
Proof.
  intros (g & s1 & b & i & s2 & h & a & s3 & t & s4 & att & s5 & -> &
          P1 & (N2 & U2 & L2) & P3 & P4 & P5 & _) Hpos.
  intros th [<- | [<- | [<- | [<- | [<- | []]]]]]; cbn; unfold in_range; auto.
Qed.

(** C1, as the code has it: for every input of the documented shape whose
    [information_transfer] is absent or not negative, the assessment is
    computed, each of the five scores is a number in [0, 1] and the
    credence is a number in [0, 100]; this holds of the content before the
    proof is attached and of every assessment the method returns. *)
Theorem C1_scores_and_credence_bounded
        (json_dumps : pyval -> option string)
        (sha256_hexdigest : string -> string)
        (self : assessor) (now : string) (spike_data : dict) :
  shape_ok spike_data = true ->
  0 <= nv (get spike_data "information_transfer" (PInt 0)) ->
  (exists pre,
      assessment_of now spike_data = Ok pre /\
      scores_in_unit_interval pre /\ credence_in_range pre) /\
  (forall a self',
      assess_from_spikes json_dumps sha256_hexdigest now spike_data self
      = (Ok a, self') ->
      scores_in_unit_interval a /\ credence_in_range a).
Proof.
  intros Hshape Hpos.
  pose proof (shape_ok_numeric _ Hshape) as Hnum.
  destruct (assessment_of_numeric now _ Hnum)
    as (ind & c & Epre & Hind & Nc & Uc & Lc).
  pose proof (indicators_shape_scores _ _ Hind Hpos) as Hs.
  split.
  - eexists. split; [exact Epre |]. split.
    + intros t Ht. rewrite score_of_pre_proof. auto.
    + unfold credence_in_range. rewrite summary_entry_pre_proof.
      cbn. unfold in_range. auto.
  - intros a self' Hcall.
    apply assess_Ok_inv in Hcall.
    destruct Hcall as (pre & js & Epre' & _ & -> & _).
    rewrite Epre in Epre'. injection Epre' as <-. split.
    + intros t Ht. rewrite score_of_proof. auto.
    + unfold credence_in_range. rewrite summary_entry_proof.
      cbn. unfold in_range. auto.
Qed.

(** The bounds on the entry point's input, whose [information_transfer]
    is 0.40. *)
Lemma C1_scores_and_credence_bounded_witness :
  (exists pre,
      assessment_of sample_now demo_input = Ok pre /\
      scores_in_unit_interval pre /\ credence_in_range pre) /\
  (forall a self',
      assess_from_spikes sample_dumps sample_sha256 sample_now demo_input init
      = (Ok a, self') ->
      scores_in_unit_interval a /\ credence_in_range a).
Proof.
  apply (C1_scores_and_credence_bounded
           sample_dumps sample_sha256 init sample_now demo_input).
  - vm_compute. reflexivity.
  - vm_compute. discriminate.
Defined.

(** C1 as stated fails: with [information_transfer = -1.0] and every
    other field absent, the GWT score is [-0.3] and the credence is
    [-7.5]. *)
Lemma C1_negative_transfer_counterexample :
  shape_ok negative_transfer = true /\
  exists a self',
    assess_from_spikes sample_dumps sample_sha256 sample_now
      negative_transfer init = (Ok a, self') /\
    score_of a "GWT" = PFloat (-0.3) /\
    ~ scores_in_unit_interval a /\
    summary_entry a "credence" = PFloat (-15 # 2) /\
    ~ credence_in_range a.
Proof.
  split; [reflexivity |].
  eexists. eexists. split; [vm_compute; reflexivity |].
  split; [reflexivity |]. split; [| split; [reflexivity |]].
  - intros H. destruct (H "GWT") as (_ & Hlo & _).
    + simpl. tauto.
    + vm_compute in Hlo. apply Hlo. reflexivity.
  - intros (_ & Hlo & _). vm_compute in Hlo. apply Hlo. reflexivity.
Qed.

(** ** The proof entry *)

Lemma substring_prefix_length (m : nat) (s : string) :
  (m <= String.length s)%nat -> String.length (substring 0 m s) = m.
Proof.
  revert s. induction m as [| m IH]; intros s H.
  - destruct s; reflexivity.
  - destruct s as [| c s]; simpl in *; [lia |].
    rewrite IH; [reflexivity | lia].
Qed.

(** C2: the proof entry of a returned assessment is ["sha256:"] followed
    by the first 32 characters of the digest of the serialised content
    before the proof was attached (timestamp, snn_config, indicators and
    summary); that prefix is what the call appended to the proof chain,
    and hashing the returned assessment without its proof entry gives it
    again. *)
Theorem C2_proof_is_digest_prefix
        (json_dumps : pyval -> option string)
        (sha256_hexdigest : string -> string)
        (self self' : assessor) (now : string) (spike_data a : dict) :
  assess_from_spikes json_dumps sha256_hexdigest now spike_data self
  = (Ok a, self') ->
  exists pre js,
    assessment_of now spike_data = Ok pre /\
    map fst pre = ["timestamp"; "snn_config"; "indicators"; "summary"] /\
    json_dumps (PDict pre) = Some js /\
    let h := substring 0 32 (sha256_hexdigest js) in
    dict_get "proof" a = Some (PStr ("sha256:" ++ h)) /\
    dict_remove "proof" a = pre /\
    proof_chain self' = (proof_chain self ++ [h])%list /\
    proof_hash_of json_dumps sha256_hexdigest (dict_remove "proof" a) = Ok h /\
    ((32 <= String.length (sha256_hexdigest js))%nat ->
     String.length h = 32%nat).
Proof.
  intros Hcall. apply assess_Ok_inv in Hcall.
  destruct Hcall as (pre & js & Epre & Hjs & -> & ->).
  exists pre, js.
  destruct (assessment_of_inv _ _ _ Epre) as (ind & sm & _ & _ & ->).
  split; [exact Epre |]. split; [reflexivity |]. split; [exact Hjs |].
  cbv zeta. split; [reflexivity |].
  assert (Hrm : forall p, dict_remove "proof"
                  (dict_set "proof" p (pre_proof now spike_data ind sm))
                = pre_proof now spike_data ind sm) by reflexivity.
  rewrite Hrm. split; [reflexivity |]. split; [reflexivity |]. split.
  - unfold proof_hash_of. rewrite Hjs. reflexivity.
  - apply substring_prefix_length.
Qed.

(** The proof entry of the entry point's call on a fresh assessor. *)
Lemma C2_proof_is_digest_prefix_witness :
  exists pre js,
    assessment_of sample_now demo_input = Ok pre /\
    map fst pre = ["timestamp"; "snn_config"; "indicators"; "summary"] /\
    sample_dumps (PDict pre) = Some js /\
    let h := substring 0 32 (sample_sha256 js) in
    dict_get "proof" demo_assessment = Some (PStr ("sha256:" ++ h)) /\
    dict_remove "proof" demo_assessment = pre /\
    proof_chain demo_after = (proof_chain init ++ [h])%list /\
    proof_hash_of sample_dumps sample_sha256
      (dict_remove "proof" demo_assessment) = Ok h /\
    ((32 <= String.length (sample_sha256 js))%nat ->
     String.length h = 32%nat).
Proof.
  apply (C2_proof_is_digest_prefix
           sample_dumps sample_sha256 init demo_after sample_now demo_input
           demo_assessment).
  vm_compute. reflexivity.
Defined.

(** ** The provenance log over a sequence of calls *)

Lemma assess_step
      (json_dumps : pyval -> option string)
      (sha256_hexdigest : string -> string)
      (self : assessor) (now : string) (d : dict) :
  match assess_from_spikes json_dumps sha256_hexdigest now d self with
  | (Ok a, self') =>
      exists h,
        proof_chain self' = (proof_chain self ++ [h])%list /\
        assessments self' = (assessments self ++ [a])%list
  | (Raise _, self') => self' = self
  end.
Proof.
  destruct (assess_from_spikes json_dumps sha256_hexdigest now d self)
    as [[a | e] self'] eqn:Hcall.
  - apply assess_Ok_inv in Hcall.
    destruct Hcall as (pre & js & _ & _ & -> & ->).
    eexists. split; reflexivity.
  - apply assess_Raise_inv in Hcall. exact Hcall.
Qed.

Lemma run_log
      (json_dumps : pyval -> option string)
      (sha256_hexdigest : string -> string)
      (calls : list (string * dict)) (self : assessor) :
  exists hs ls,
    proof_chain (snd (run json_dumps sha256_hexdigest self calls))
    = (proof_chain self ++ hs)%list /\
    assessments (snd (run json_dumps sha256_hexdigest self calls))
    = (assessments self ++ ls)%list /\
    List.length hs
    = successes (fst (run json_dumps sha256_hexdigest self calls)) /\
    List.length ls
    = successes (fst (run json_dumps sha256_hexdigest self calls)).
Proof.
  revert self. induction calls as [| [now d] calls IH]; intros self.
  - exists [], []. simpl. rewrite !app_nil_r. auto.
  - simpl.
    pose proof (assess_step json_dumps sha256_hexdigest self now d) as Hstep.
    destruct (assess_from_spikes json_dumps sha256_hexdigest now d self)
      as [r self1].
    destruct (IH self1) as (hs & ls & Hc & Ha & Lh & Ll).
    destruct (run json_dumps sha256_hexdigest self1 calls) as [rs self2].
    simpl in *. destruct r as [a | e].
    + destruct Hstep as (h & Hc1 & Ha1).
      exists (h :: hs), (a :: ls).
      rewrite Hc, Ha, Hc1, Ha1, <- !app_assoc. unfold successes in *.
      simpl. auto.
    + subst self1. exists hs, ls. unfold successes in *. simpl. auto.
Qed.

(** C3: on an assessor created by [__init__] and used through any
    sequence of calls, the proof chain starts with ["GENESIS"], it has one
    entry more than there were successful calls, and the history has as
    many entries as there were successful calls; from the state reached, a
    successful call appends exactly one entry to each and a failing call
    changes nothing, so every later state extends both sequences and
    keeps the entries already there. *)
Theorem C3_chain_and_history_append_only
        (json_dumps : pyval -> option string)
        (sha256_hexdigest : string -> string)
        (calls : list (string * dict)) :
  let rs := fst (run json_dumps sha256_hexdigest init calls) in
  let self := snd (run json_dumps sha256_hexdigest init calls) in
  hd_error (proof_chain self) = Some "GENESIS" /\
  List.length (proof_chain self) = S (successes rs) /\
  List.length (assessments self) = successes rs /\
  (forall now d,
      match assess_from_spikes json_dumps sha256_hexdigest now d self with
      | (Ok a, self') =>
          exists h,
            proof_chain self' = (proof_chain self ++ [h])%list /\
            assessments self' = (assessments self ++ [a])%list
      | (Raise _, self') => self' = self
      end) /\
  (forall more,
      let later := snd (run json_dumps sha256_hexdigest self more) in
      exists hs ls,
        proof_chain later = (proof_chain self ++ hs)%list /\
        assessments later = (assessments self ++ ls)%list).
Proof.
  cbv zeta.
  destruct (run_log json_dumps sha256_hexdigest calls init)
    as (hs & ls & Hc & Ha & Lh & Ll).
  split; [rewrite Hc; reflexivity |].
  split; [rewrite Hc; simpl; rewrite Lh; reflexivity |].
  split; [rewrite Ha; simpl; exact Ll |].
  split.
  - intros now d. apply assess_step.
  - intros more.
    destruct (run_log json_dumps sha256_hexdigest more
                (snd (run json_dumps sha256_hexdigest init calls)))
      as (hs' & ls' & Hc' & Ha' & _).
    exists hs', ls'. auto.
Qed.

(** ** Defaults *)



Lemma dict_get_set_same (k : string) (v : pyval) (d : dict) :
  dict_get k (dict_set k v d) = Some v.
Proof.
  induction d as [| [k' v'] d IH]; simpl.
  - rewrite String.eqb_refl. reflexivity.
  - destruct (String.eqb k k') eqn:E; simpl; rewrite E; [reflexivity | exact IH].
Qed.

Lemma dict_get_set_other (k k' : string) (v : pyval) (d : dict) :
  String.eqb k k' = false ->
  dict_get k (dict_set k' v d) = dict_get k d.
Proof.
  intros Hk. induction d as [| [k0 v0] d IH]; simpl.
  - rewrite Hk. reflexivity.
  - destruct (String.eqb k' k0) eqn:E; simpl.
    + apply String.eqb_eq in E. subst k0. rewrite Hk. reflexivity.
    + destruct (String.eqb k k0); [reflexivity | exact IH].
Qed.










(** ** Serialisable assessments *)



















Lemma sample_dumps_plain (v : pyval) :
  json_plain v = true -> sample_dumps v <> None.
Proof. intros H. unfold sample_dumps. rewrite H. discriminate. Qed.





(** ** Failed serialisation, and two concrete inputs *)

Lemma indicator_entry_set_proof (pre : dict) (p : pyval) (t k : string) :
  indicator_entry (dict_set "proof" p pre) t k = indicator_entry pre t k.
Proof.
  unfold indicator_entry. rewrite dict_get_set_other by reflexivity.
  reflexivity.
Qed.

Lemma score_of_set_proof (pre : dict) (p : pyval) (t : string) :
  score_of (dict_set "proof" p pre) t = score_of pre t.
Proof. apply indicator_entry_set_proof. Qed.

Lemma summary_entry_set_proof (pre : dict) (p : pyval) (k : string) :
  summary_entry (dict_set "proof" p pre) k = summary_entry pre k.
Proof.
  unfold summary_entry. rewrite dict_get_set_other by reflexivity.
  reflexivity.
Qed.

(** C5: when the serialisation of the assembled assessment fails, the call
    raises and the assessor is as it was before the call: neither the
    history nor the proof chain has a new entry. *)
Theorem C5_failed_serialisation_leaves_state
        (json_dumps : pyval -> option string)
        (sha256_hexdigest : string -> string)
        (self : assessor) (now : string) (spike_data pre : dict) :
  assessment_of now spike_data = Ok pre ->
  json_dumps (PDict pre) = None ->
  assess_from_spikes json_dumps sha256_hexdigest now spike_data self
  = (Raise SerializationError, self).
Proof.
  intros Hpre Hfail. unfold assess_from_spikes, mbind, lift.
  rewrite Hpre. unfold proof_hash_of. rewrite Hfail. reflexivity.
Qed.

(** An object under [mean_firing_rate] reaches the serialiser, which
    rejects it; the assessor that has logged one call stays as it is. *)
Lemma C5_failed_serialisation_leaves_state_witness :
  exists pre,
    assessment_of sample_now unserializable_input = Ok pre /\
    sample_dumps (PDict pre) = None /\
    assess_from_spikes sample_dumps sample_sha256 sample_now
      unserializable_input demo_after
    = (Raise SerializationError, demo_after).
Proof.
  eexists. split; [vm_compute; reflexivity |]. split; [reflexivity |].
  eapply (C5_failed_serialisation_leaves_state
            sample_dumps sample_sha256 demo_after sample_now
            unserializable_input).
  - vm_compute. reflexivity.
  - reflexivity.
Defined.

(** C6: on the scenario of the entry point the call returns an assessment
    whose RPT score is 0.97, whose GWT indicator has
    [global_broadcast = True], [ignition_detected = False] and score 0.52,
    and [status()["assessments"]] is one more after the call than
    before. *)
Theorem C6_entry_point_scenario
        (json_dumps : pyval -> option string)
        (sha256_hexdigest : string -> string)
        (self : assessor) (now : string) :
  (forall v, json_plain v = true -> json_dumps v <> None) ->
  exists a self',
    assess_from_spikes json_dumps sha256_hexdigest now demo_input self
    = (Ok a, self') /\
    score_of a "RPT" = PFloat 0.97 /\
    indicator_entry a "GWT" "global_broadcast" = PBool true /\
    indicator_entry a "GWT" "ignition_detected" = PBool false /\
    score_of a "GWT" = PFloat (Qred 0.52) /\
    exists count,
      dict_get "assessments" (status self) = Some (PInt count) /\
      dict_get "assessments" (status self') = Some (PInt (count + 1)).
Proof.
  intros Hdumps.
  assert (E : exists pre,
             assessment_of now demo_input = Ok pre /\
             json_plain (PDict pre) = true /\
             score_of pre "RPT" = PFloat 0.97 /\
             indicator_entry pre "GWT" "global_broadcast" = PBool true /\
             indicator_entry pre "GWT" "ignition_detected" = PBool false /\
             score_of pre "GWT" = PFloat (Qred 0.52)).
  { eexists. split; [vm_compute; reflexivity |].
    repeat split; vm_compute; reflexivity. }
  destruct E as (pre & Epre & Hplain & H1 & H2 & H3 & H4).
  destruct (json_dumps (PDict pre)) as [js |] eqn:Hjs;
    [| exfalso; exact (Hdumps _ Hplain Hjs)].
  do 2 eexists. split; [exact (assess_success _ _ _ _ _ _ _ Epre Hjs) |].
  rewrite !score_of_set_proof, !indicator_entry_set_proof.
  repeat (split; [assumption |]).
  eexists. split; [reflexivity |].
  unfold status, logged. cbn [dict_get String.eqb Ascii.eqb Bool.eqb assessments].
  rewrite length_app, Nat2Z.inj_add. reflexivity.
Qed.

(** The scenario on the assessor that has logged one call: the count goes
    from 1 to 2. *)
Lemma C6_entry_point_scenario_witness :
  exists a self',
    assess_from_spikes sample_dumps sample_sha256 sample_now demo_input
      demo_after
    = (Ok a, self') /\
    score_of a "RPT" = PFloat 0.97 /\
    indicator_entry a "GWT" "global_broadcast" = PBool true /\
    indicator_entry a "GWT" "ignition_detected" = PBool false /\
    score_of a "GWT" = PFloat (Qred 0.52) /\
    exists count,
      dict_get "assessments" (status demo_after) = Some (PInt count) /\
      dict_get "assessments" (status self') = Some (PInt (count + 1)).
Proof.
  apply (C6_entry_point_scenario
           sample_dumps sample_sha256 demo_after sample_now).
  exact sample_dumps_plain.
Defined.

(** C7: on the empty input the call returns an assessment in which each
    of the five scores equals 0.0, the credence equals 0.0 and
    [satisfied_indicators] is ["0/14"]. *)
Theorem C7_empty_input
        (json_dumps : pyval -> option string)
        (sha256_hexdigest : string -> string)
        (self : assessor) (now : string) :
  (forall v, json_plain v = true -> json_dumps v <> None) ->
  exists a self',
    assess_from_spikes json_dumps sha256_hexdigest now [] self
    = (Ok a, self') /\
    (forall t, In t THEORIES ->
               py_num_eq (score_of a t) (PFloat 0.0) = true) /\
    py_num_eq (summary_entry a "credence") (PFloat 0.0) = true /\
    summary_entry a "satisfied_indicators" = PStr "0/14".
Proof.
  intros Hdumps.
  assert (E : exists pre,
             assessment_of now [] = Ok pre /\
             json_plain (PDict pre) = true /\
             forallb (fun t => py_num_eq (score_of pre t) (PFloat 0.0))
               THEORIES = true /\
             py_num_eq (summary_entry pre "credence") (PFloat 0.0) = true /\
             summary_entry pre "satisfied_indicators" = PStr "0/14").
  { eexists. split; [vm_compute; reflexivity |].
    repeat split; vm_compute; reflexivity. }
  destruct E as (pre & Epre & Hplain & H1 & H2 & H3).
  destruct (json_dumps (PDict pre)) as [js |] eqn:Hjs;
    [| exfalso; exact (Hdumps _ Hplain Hjs)].
  do 2 eexists. split; [exact (assess_success _ _ _ _ _ _ _ Epre Hjs) |].
  rewrite !summary_entry_set_proof.
  split; [| split; assumption].
  intros t Ht. rewrite score_of_set_proof.
  rewrite forallb_forall in H1. apply H1. exact Ht.
Qed.

(** The empty input on a fresh assessor. *)
Lemma C7_empty_input_witness :
  exists a self',
    assess_from_spikes sample_dumps sample_sha256 sample_now [] init
    = (Ok a, self') /\
    (forall t, In t THEORIES ->
               py_num_eq (score_of a t) (PFloat 0.0) = true) /\
    py_num_eq (summary_entry a "credence") (PFloat 0.0) = true /\
    summary_entry a "satisfied_indicators" = PStr "0/14".
Proof.
  apply (C7_empty_input sample_dumps sample_sha256 init sample_now).
  exact sample_dumps_plain.
Defined.

(** ** The indicator count *)

(** C8: whatever the input, the [satisfied_indicators] entry of a returned
    assessment is a decimal count followed by the literal ["/14"]. *)
Theorem C8_denominator_is_literal_14
        (json_dumps : pyval -> option string)
        (sha256_hexdigest : string -> string)
        (self self' : assessor) (now : string) (spike_data a : dict) :
  assess_from_spikes json_dumps sha256_hexdigest now spike_data self
  = (Ok a, self') ->
  exists k : nat,
    summary_entry a "satisfied_indicators" = PStr (str_of_nat k ++ "/14").
Proof.
  intros Hcall. apply assess_Ok_inv in Hcall.
  destruct Hcall as (pre & js & Epre & _ & -> & _).
  destruct (assessment_of_inv _ _ _ Epre) as (ind & sm & _ & Hs & ->).
  destruct (summary_of_inv _ _ Hs) as (c & k & ->).
  exists k. reflexivity.
Qed.

(** The entry point's call: ["10/14"]. *)
Lemma C8_denominator_is_literal_14_witness :
  exists k : nat,
    summary_entry demo_assessment "satisfied_indicators"
    = PStr (str_of_nat k ++ "/14").
Proof.
  apply (C8_denominator_is_literal_14
           sample_dumps sample_sha256 init demo_after sample_now demo_input
           demo_assessment).
  vm_compute. reflexivity.
Defined.

(** C9: two calls with the same input, on any two assessor states and at
    any two times, return assessments with the same indicators and the
    same summary. *)
Theorem C9_indicators_and_summary_depend_on_input_only
        (json_dumps : pyval -> option string)
        (sha256_hexdigest : string -> string)
        (self1 self2 self1' self2' : assessor) (now1 now2 : string)
        (spike_data a1 a2 : dict) :
  assess_from_spikes json_dumps sha256_hexdigest now1 spike_data self1
  = (Ok a1, self1') ->
  assess_from_spikes json_dumps sha256_hexdigest now2 spike_data self2
  = (Ok a2, self2') ->
  exists ind sm,
    dict_get "indicators" a1 = Some (PDict ind) /\
    dict_get "indicators" a2 = Some (PDict ind) /\
    dict_get "summary" a1 = Some (PDict sm) /\
    dict_get "summary" a2 = Some (PDict sm).
Proof.
  intros H1 H2.
  apply assess_Ok_inv in H1. destruct H1 as (pre1 & js1 & E1 & _ & -> & _).
  apply assess_Ok_inv in H2. destruct H2 as (pre2 & js2 & E2 & _ & -> & _).
  destruct (assessment_of_inv _ _ _ E1) as (ind & sm & Hi & Hs & ->).
  destruct (assessment_of_inv _ _ _ E2) as (ind' & sm' & Hi' & Hs' & ->).
  rewrite Hi in Hi'. injection Hi' as <-.
  rewrite Hs in Hs'. injection Hs' as <-.
  exists ind, sm. repeat split; reflexivity.
Qed.

(** The entry point's input, on a fresh assessor and again later on the
    assessor that has logged the first call. *)
Lemma C9_indicators_and_summary_depend_on_input_only_witness :
  exists ind sm,
    dict_get "indicators" demo_assessment = Some (PDict ind) /\
    dict_get "indicators" demo_assessment_again = Some (PDict ind) /\
    dict_get "summary" demo_assessment = Some (PDict sm) /\
    dict_get "summary" demo_assessment_again = Some (PDict sm).
Proof.
  apply (C9_indicators_and_summary_depend_on_input_only
           sample_dumps sample_sha256 init demo_after demo_after
           demo_after_again sample_now later_now demo_input).
  - vm_compute. reflexivity.
  - vm_compute. reflexivity.
Defined.

(** ** The numerator *)

Lemma count_below_14 (k : nat) :
  (k <= 12)%nat -> PStr (str_of_nat k ++ "/14") <> PStr "14/14".
Proof.
  intros Hk.
  do 13 (destruct k as [| k]; [vm_compute; discriminate |]).
  lia.
Qed.

Lemma numerator_of_shape (now : string) (d ind : dict) (c : pyval) :
  numeric_inputs d -> indicators_shape d ind ->
  forall a,
    dict_get "indicators" a = Some (PDict ind) ->
    summary_entry a "satisfied_indicators"
    = PStr (str_of_nat (true_signals ind) ++ "/14") ->
    numerator_counts_booleans a.
Proof.
  intros (_ & _ & Hrec & Hit & _) Hind a Hi Hs.
  exists ind. split; [exact Hi |]. split; [exact Hs |].
  destruct Hind as (g & s1 & b & i & s2 & h & x & s3 & t & s4 & att & s5 &
                    E & _).
  split; [rewrite E; cbn; apply number_not_True; exact Hrec |].
  split; [rewrite E; cbn; apply number_not_True; exact Hit |].
  split; [apply true_signals_le_12 |].
  rewrite Hs. apply count_below_14. apply true_signals_le_12.
Qed.

(** C10: for every input of the documented shape, the numerator of
    [satisfied_indicators] counts exactly the boolean sub-signals that
    are [True]; [feedback_depth] and [information_transfer] never count;
    the numerator is at most 12, so ["14/14"] is never returned. *)
Theorem C10_numerator_at_most_12
        (json_dumps : pyval -> option string)
        (sha256_hexdigest : string -> string)
        (self : assessor) (now : string) (spike_data : dict) :
  shape_ok spike_data = true ->
  (exists pre,
      assessment_of now spike_data = Ok pre /\
      numerator_counts_booleans pre) /\
  (forall a self',
      assess_from_spikes json_dumps sha256_hexdigest now spike_data self
      = (Ok a, self') ->
      numerator_counts_booleans a).
Proof.
  intros Hshape.
  pose proof (shape_ok_numeric _ Hshape) as Hnum.
  destruct (assessment_of_numeric now _ Hnum)
    as (ind & c & Epre & Hind & _).
  split.
  - eexists. split; [exact Epre |].
    apply (numerator_of_shape now spike_data ind c Hnum Hind); reflexivity.
  - intros a self' Hcall. apply assess_Ok_inv in Hcall.
    destruct Hcall as (pre & js & Epre' & _ & -> & _).
    rewrite Epre in Epre'. injection Epre' as <-.
    apply (numerator_of_shape now spike_data ind c Hnum Hind); reflexivity.
Qed.

(** The entry point's input: ten of the twelve are [True]. *)
Lemma C10_numerator_at_most_12_witness :
  (exists pre,
      assessment_of sample_now demo_input = Ok pre /\
      numerator_counts_booleans pre) /\
  (forall a self',
      assess_from_spikes sample_dumps sample_sha256 sample_now demo_input init
      = (Ok a, self') ->
      numerator_counts_booleans a).
Proof.
  apply (C10_numerator_at_most_12
           sample_dumps sample_sha256 init sample_now demo_input).
  reflexivity.
Defined.

(** The bound on the numerator is reached: on [saturated_input] all
    twelve boolean sub-signals are [True]. *)
Example saturated_input_counts_12 :
  exists pre,
    assessment_of sample_now saturated_input = Ok pre /\
    summary_entry pre "satisfied_indicators" = PStr "12/14" /\
    summary_entry pre "credence" = PFloat 100.
Proof. eexists. split; [vm_compute; reflexivity |]. split; reflexivity. Qed.

(** ** The entry point's scores in binary64

    On the values of the entry point, and on the input that refutes the
    lower bound, the doubles computed before rounding are already the
    doubles nearest to 0.97, 0.52 and -0.3, which [round(., 3)] returns
    unchanged: exact arithmetic and binary64 agree there. *)

Module Binary64Facts.

Import PrimFloat Binary64.

#[local] Set Warnings "-inexact-float".

Local Open Scope float_scope.

Example rpt_score_entry_point :
  (rpt_score true true true 0.45 =? 0.97) = true.
Proof. reflexivity. Qed.

Example gwt_score_entry_point :
  (gwt_score true false 0.40 =? 0.52) = true.
Proof. reflexivity. Qed.

Example gwt_score_negative_transfer :
  (gwt_score false false (-1.0) =? -0.3) = true.
Proof. reflexivity. Qed.

End Binary64Facts.


(** * Further properties *)

(** ** What the call can raise *)

Lemma raises_bind {A B : Type} (m : result A) (f : A -> result B) :
  raises_only_TypeError m ->
  (forall a, raises_only_TypeError (f a)) ->
  raises_only_TypeError (bind m f).
Proof. destruct m as [a | e]; simpl; auto. Qed.

Lemma py_gt_only (a b : pyval) : raises_only_TypeError (py_gt a b).
Proof.
  unfold py_gt. destruct (as_num a); [destruct (as_num b) |]; simpl; auto.
Qed.

Lemma py_add_only (a b : pyval) : raises_only_TypeError (py_add a b).
Proof.
  unfold py_add.
  destruct (as_num a) as [[x | x] |]; [| | simpl; auto];
    destruct (as_num b) as [[y | y] |]; simpl; auto.
Qed.

Lemma py_mul_only (a b : pyval) : raises_only_TypeError (py_mul a b).
Proof.
  unfold py_mul.
  destruct (as_num a) as [[x | x] |]; [| | simpl; auto];
    destruct (as_num b) as [[y | y] |]; simpl; auto.
Qed.

(** Dividing by the literal [0.5] never raises [ZeroDivisionError]. *)
Lemma py_div_half_only (a : pyval) :
  raises_only_TypeError (py_div a (PFloat 0.5)).
Proof.
  unfold py_div. destruct (as_num a); simpl; auto.
Qed.

Lemma py_min_only (a b : pyval) : raises_only_TypeError (py_min a b).
Proof.
  unfold py_min, py_lt. apply raises_bind; [apply py_gt_only |].
  intros c. exact I.
Qed.

Lemma py_round_only (v : pyval) (n : nat) :
  raises_only_TypeError (py_round v n).
Proof.
  unfold py_round. destruct (as_num v) as [[x | x] |]; simpl; auto.
Qed.

Ltac only_type_error :=
  repeat first
    [ exact I
    | apply py_gt_only
    | apply py_add_only
    | apply py_mul_only
    | apply py_div_half_only
    | apply py_min_only
    | apply py_round_only
    | apply raises_bind; [| intros ?]
    | match goal with
      | |- raises_only_TypeError (if ?c then _ else _) => destruct c
      end ].

Lemma rpt_only (d : dict) (rec gamma : pyval) :
  raises_only_TypeError (rpt d rec gamma).
Proof. unfold rpt. cbv zeta. only_type_error. Qed.

Lemma gwt_only (d : dict) (n sync gamma : pyval) :
  raises_only_TypeError (gwt d n sync gamma).
Proof. unfold gwt. cbv zeta. only_type_error. Qed.

Lemma hot_only (d : dict) (rec alpha : pyval) :
  raises_only_TypeError (hot d rec alpha).
Proof. unfold hot. cbv zeta. only_type_error. Qed.

Lemma pp_only (d : dict) (theta : pyval) :
  raises_only_TypeError (pp d theta).
Proof. unfold pp. cbv zeta. only_type_error. Qed.

Lemma ast_only (d : dict) (sync : pyval) :
  raises_only_TypeError (ast d sync).
Proof. unfold ast. cbv zeta. only_type_error. Qed.

Lemma py_round_Ok_number (v r : pyval) (n : nat) :
  py_round v n = Ok r -> number r.
Proof.
  unfold py_round. destruct (as_num v) as [[x | x] |]; intros [= <-]; exact I.
Qed.

Ltac invert_binds H :=
  repeat (apply bind_Ok in H;
          let x := fresh "x" in
          let E := fresh "E" in
          destruct H as (x & E & H)).

Ltac block_layout H :=
  cbv zeta in H; invert_binds H; injection H as <-;
  repeat eexists;
  match goal with
  | E : py_round _ _ = Ok _ |- _ => exact (py_round_Ok_number _ _ _ E)
  end.

Lemma rpt_layout (d dct : dict) (rec gamma : pyval) :
  rpt d rec gamma = Ok dct ->
  exists x y z s,
    dct = [("recurrent_processing", x); ("feedback_depth", y);
           ("gamma_oscillations", z); ("score", s)] /\ number s.
Proof. unfold rpt. intros H. block_layout H. Qed.

Lemma gwt_layout (d dct : dict) (n sync gamma : pyval) :
  gwt d n sync gamma = Ok dct ->
  exists x y z s,
    dct = [("global_broadcast", x); ("ignition_detected", y);
           ("information_transfer", z); ("score", s)] /\ number s.
Proof. unfold gwt. intros H. block_layout H. Qed.

Lemma hot_layout (d dct : dict) (rec alpha : pyval) :
  hot d rec alpha = Ok dct ->
  exists x y z s,
    dct = [("hierarchical_processing", x); ("lateral_inhibition", y);
           ("alpha_modulation", z); ("score", s)] /\ number s.
Proof. unfold hot. intros H. block_layout H. Qed.

Lemma pp_layout (d dct : dict) (theta : pyval) :
  pp d theta = Ok dct ->
  exists x y z s,
    dct = [("synaptic_plasticity", x); ("top_down_predictions", y);
           ("theta_oscillations", z); ("score", s)] /\ number s.
Proof. unfold pp. intros H. block_layout H. Qed.

Lemma ast_layout (d dct : dict) (sync : pyval) :
  ast d sync = Ok dct ->
  exists x y s,
    dct = [("attention_mechanism", x); ("attention_schema", y);
           ("score", s)] /\ number s.
Proof. unfold ast. intros H. block_layout H. Qed.

Lemma indicators_of_layout (d ind : dict) :
  indicators_of d = Ok ind -> indicators_layout ind.
Proof.
  unfold indicators_of. cbv zeta. intros H. invert_binds H.
  injection H as <-.
  repeat match goal with
         | E : rpt _ _ _ = Ok _ |- _ =>
             apply rpt_layout in E; destruct E as (? & ? & ? & ? & -> & ?)
         | E : gwt _ _ _ _ = Ok _ |- _ =>
             apply gwt_layout in E; destruct E as (? & ? & ? & ? & -> & ?)
         | E : hot _ _ _ = Ok _ |- _ =>
             apply hot_layout in E; destruct E as (? & ? & ? & ? & -> & ?)
         | E : pp _ _ = Ok _ |- _ =>
             apply pp_layout in E; destruct E as (? & ? & ? & ? & -> & ?)
         | E : ast _ _ = Ok _ |- _ =>
             apply ast_layout in E; destruct E as (? & ? & ? & -> & ?)
         end.
  unfold indicators_layout. repeat eexists; assumption.
Qed.

(** On indicators of that layout the aggregation never raises: the keys
    it looks up are there and the scores are numbers. *)
Lemma summary_of_layout (ind : dict) :
  indicators_layout ind -> exists sm, summary_of ind = Ok sm.
Proof.
  intros (x1 & y1 & z1 & s1 & x2 & y2 & z2 & s2 & x3 & y3 & z3 & s3 &
          x4 & y4 & z4 & s4 & x5 & y5 & s5 & -> & N1 & N2 & N3 & N4 & N5).
  unfold summary_of.
  change (scores_of _ THEORIES) with (Ok [s1; s2; s3; s4; s5]).
  cbn [bind combine weights weighted_sum].
  repeat step.
  match goal with
  | |- context [total_indicators ?ind THEORIES] =>
      assert (T : exists k, total_indicators ind THEORIES = Ok k)
        by (eexists; reflexivity)
  end.
  destruct T as (k & ->). cbn [bind].
  repeat step.
  eexists. reflexivity.
Qed.

Lemma indicators_of_raises (d : dict) (e : exn) :
  indicators_of d = Raise e ->
  (e = AttributeError /\
   forall bands, get d "population_oscillations" (PDict []) <> PDict bands) \/
  (e = TypeError /\
   exists bands, get d "population_oscillations" (PDict []) = PDict bands).
Proof.
  unfold indicators_of. cbv zeta.
  destruct (get d "population_oscillations" (PDict [])) as
    [| b | z | q | s | l | bands | o] eqn:Eo; cbn [attr_get bind];
    try (intros [= <-]; left; split; [reflexivity | discriminate]).
  intros H. right. split; [| exists bands; reflexivity].
  assert (R : raises_only_TypeError
                (RPT <- rpt d (get d "recurrence_depth" (PInt 0))
                          (get bands "gamma" (PInt 0)) ;;
                 GWT <- gwt d (get d "n_neurons" (PInt 0))
                          (get d "synchrony_index" (PInt 0))
                          (get bands "gamma" (PInt 0)) ;;
                 HOT <- hot d (get d "recurrence_depth" (PInt 0))
                          (get bands "alpha" (PInt 0)) ;;
                 PP <- pp d (get bands "theta" (PInt 0)) ;;
                 AST <- ast d (get d "synchrony_index" (PInt 0)) ;;
                 Ok [("RPT", PDict RPT); ("GWT", PDict GWT);
                     ("HOT", PDict HOT); ("PP", PDict PP);
                     ("AST", PDict AST)])).
  { apply raises_bind; [apply rpt_only | intros ?].
    apply raises_bind; [apply gwt_only | intros ?].
    apply raises_bind; [apply hot_only | intros ?].
    apply raises_bind; [apply pp_only | intros ?].
    apply raises_bind; [apply ast_only | intros ?].
    exact I. }
  rewrite H in R. exact R.
Qed.

(** X1: a call that raises leaves the assessor as it was, and it raises
    one of three errors: [AttributeError] when [population_oscillations]
    is present and not a dictionary, [TypeError] from the arithmetic and
    the comparisons otherwise, or the error of [json.dumps] once the
    assessment has been assembled.  No lookup by key and no division
    fails.  The values that enter float arithmetic,
    [information_transfer] and the three bands, are taken within
    [float_range]. *)
Theorem X1_what_a_call_can_raise
        (json_dumps : pyval -> option string)
        (sha256_hexdigest : string -> string)
        (self self' : assessor) (now : string) (spike_data : dict)
        (e : exn) :
  float_range (get spike_data "information_transfer" (PInt 0)) ->
  (forall bands,
      get spike_data "population_oscillations" (PDict []) = PDict bands ->
      float_range (get bands "gamma" (PInt 0)) /\
      float_range (get bands "theta" (PInt 0)) /\
      float_range (get bands "alpha" (PInt 0))) ->
  assess_from_spikes json_dumps sha256_hexdigest now spike_data self
  = (Raise e, self') ->
  self' = self /\
  ((e = AttributeError /\
    forall bands,
      get spike_data "population_oscillations" (PDict []) <> PDict bands) \/
   (e = TypeError /\
    exists bands,
      get spike_data "population_oscillations" (PDict []) = PDict bands) \/
   (e = SerializationError /\
    exists pre,
      assessment_of now spike_data = Ok pre /\
      json_dumps (PDict pre) = None)).
Proof.
  intros _ _ Hcall.
  split; [exact (assess_Raise_inv _ _ _ _ _ _ _ Hcall) |].
  revert Hcall. unfold assess_from_spikes, mbind, lift.
  destruct (assessment_of now spike_data) as [pre | e0] eqn:Epre.
  - unfold proof_hash_of.
    destruct (json_dumps (PDict pre)) as [js |] eqn:Hjs; cbn.
    + discriminate.
    + intros [= <-]. right. right. split; [reflexivity |].
      exists pre. auto.
  - intros [= <-]. revert Epre. unfold assessment_of. cbv zeta.
    destruct (indicators_of spike_data) as [ind | e1] eqn:Ei; cbn [bind].
    + destruct (summary_of_layout ind (indicators_of_layout _ _ Ei))
        as (sm & ->).
      discriminate.
    + intros [= <-].
      destruct (indicators_of_raises _ _ Ei) as [Hattr | Htype]; auto.
Qed.

(** [population_oscillations] set to [None]: [AttributeError]. *)
Lemma X1_what_a_call_can_raise_witness :
  demo_after = demo_after /\
  ((AttributeError = AttributeError /\
    forall bands,
      get oscillations_none "population_oscillations" (PDict [])
      <> PDict bands) \/
   (AttributeError = TypeError /\
    exists bands,
      get oscillations_none "population_oscillations" (PDict [])
      = PDict bands) \/
   (AttributeError = SerializationError /\
    exists pre,
      assessment_of sample_now oscillations_none = Ok pre /\
      sample_dumps (PDict pre) = None)).
Proof.
  apply (X1_what_a_call_can_raise
           sample_dumps sample_sha256 demo_after demo_after sample_now
           oscillations_none AttributeError).
  - reflexivity.
  - intros bands H. discriminate H.
  - reflexivity.
Defined.

(** ** What a call that returns has read *)

Lemma py_gt_Ok_num (a b : pyval) (c : bool) :
  py_gt a b = Ok c -> as_num a <> None /\ as_num b <> None.
Proof.
  unfold py_gt. destruct (as_num a); [| discriminate].
  destruct (as_num b); [| discriminate]. intros _. split; discriminate.
Qed.

Lemma py_mul_Ok_num (a b v : pyval) :
  py_mul a b = Ok v -> as_num a <> None /\ as_num b <> None.
Proof.
  unfold py_mul. destruct (as_num a) as [[x | x] |]; [| | discriminate];
    (destruct (as_num b) as [[y | y] |]; [| | discriminate]);
    intros _; split; discriminate.
Qed.

Ltac first_comparison H :=
  cbv zeta in H; invert_binds H;
  repeat match goal with
         | E : py_gt _ _ = Ok _ |- _ => apply py_gt_Ok_num in E; destruct E
         | E : py_mul _ _ = Ok _ |- _ => apply py_mul_Ok_num in E; destruct E
         end.

Lemma rpt_Ok_num (d dct : dict) (rec gamma : pyval) :
  rpt d rec gamma = Ok dct -> as_num rec <> None /\ as_num gamma <> None.
Proof. unfold rpt. intros H. first_comparison H. split; assumption. Qed.

Lemma gwt_Ok_num (d dct : dict) (n sync gamma : pyval) :
  gwt d n sync gamma = Ok dct ->
  as_num sync <> None /\
  as_num (get d "information_transfer" (PInt 0)) <> None.
Proof. unfold gwt. intros H. first_comparison H. split; assumption. Qed.

Lemma hot_Ok_num (d dct : dict) (rec alpha : pyval) :
  hot d rec alpha = Ok dct -> as_num alpha <> None.
Proof. unfold hot. intros H. first_comparison H. assumption. Qed.

Lemma pp_Ok_num (d dct : dict) (theta : pyval) :
  pp d theta = Ok dct -> as_num theta <> None.
Proof. unfold pp. intros H. first_comparison H. assumption. Qed.

(** X2: a call returns only if [population_oscillations] is absent or a
    dictionary and, once the defaults stand in for absent keys,
    [recurrence_depth], [synchrony_index], [information_transfer] and the
    bands gamma, theta and alpha are numbers.  So a key that is present
    with [None] or a string is not replaced by its default: the call
    raises instead. *)
Theorem X2_a_returning_call_has_read_numbers
        (json_dumps : pyval -> option string)
        (sha256_hexdigest : string -> string)
        (self self' : assessor) (now : string) (spike_data a : dict) :
  assess_from_spikes json_dumps sha256_hexdigest now spike_data self
  = (Ok a, self') ->
  exists bands,
    get spike_data "population_oscillations" (PDict []) = PDict bands /\
    as_num (get spike_data "recurrence_depth" (PInt 0)) <> None /\
    as_num (get spike_data "synchrony_index" (PInt 0)) <> None /\
    as_num (get spike_data "information_transfer" (PInt 0)) <> None /\
    as_num (get bands "gamma" (PInt 0)) <> None /\
    as_num (get bands "theta" (PInt 0)) <> None /\
    as_num (get bands "alpha" (PInt 0)) <> None.
Proof.
  intros Hcall. apply assess_Ok_inv in Hcall.
  destruct Hcall as (pre & js & Epre & _).
  destruct (assessment_of_inv _ _ _ Epre) as (ind & sm & Hi & _).
  revert Hi. unfold indicators_of. cbv zeta.
  destruct (get spike_data "population_oscillations" (PDict [])) as
    [| b | z | q | s | l | bands | o]; cbn [attr_get bind];
    try discriminate.
  intros H. invert_binds H. exists bands.
  repeat match goal with
         | E : rpt _ _ _ = Ok _ |- _ => apply rpt_Ok_num in E; destruct E
         | E : gwt _ _ _ _ = Ok _ |- _ => apply gwt_Ok_num in E; destruct E
         | E : hot _ _ _ = Ok _ |- _ => apply hot_Ok_num in E
         | E : pp _ _ = Ok _ |- _ => apply pp_Ok_num in E
         end.
  repeat split; assumption.
Qed.

(** The entry point's call. *)
Lemma X2_a_returning_call_has_read_numbers_witness :
  exists bands,
    get demo_input "population_oscillations" (PDict []) = PDict bands /\
    as_num (get demo_input "recurrence_depth" (PInt 0)) <> None /\
    as_num (get demo_input "synchrony_index" (PInt 0)) <> None /\
    as_num (get demo_input "information_transfer" (PInt 0)) <> None /\
    as_num (get bands "gamma" (PInt 0)) <> None /\
    as_num (get bands "theta" (PInt 0)) <> None /\
    as_num (get bands "alpha" (PInt 0)) <> None.
Proof.
  apply (X2_a_returning_call_has_read_numbers
           sample_dumps sample_sha256 init demo_after sample_now demo_input
           demo_assessment).
  vm_compute. reflexivity.
Defined.

(** [recurrence_depth] set to [None] is not taken for a missing key. *)
Example depth_none_raises_TypeError :
  assess_from_spikes sample_dumps sample_sha256 sample_now depth_none init
  = (Raise TypeError, init).
Proof. vm_compute. reflexivity. Qed.

(** ** The keys that matter *)

Lemma get_set_other (k k' : string) (v dflt : pyval) (d : dict) :
  String.eqb k' k = false ->
  get (dict_set k v d) k' dflt = get d k' dflt.
Proof.
  intros H. unfold get. rewrite dict_get_set_other by exact H. reflexivity.
Qed.

Lemma not_read (k k' : string) :
  mem k read_keys = false -> mem k' read_keys = true ->
  String.eqb k' k = false.
Proof.
  intros Hk Hk'. destruct (String.eqb k' k) eqn:E; [| reflexivity].
  apply String.eqb_eq in E. subst k'. rewrite Hk in Hk'. discriminate.
Qed.

Lemma same_scoring_of_indicators (now1 now2 : string) (d1 d2 : dict) :
  indicators_of d1 = indicators_of d2 ->
  same_scoring (assessment_of now1 d1) (assessment_of now2 d2).
Proof.
  intros H. unfold assessment_of. cbv zeta. rewrite H.
  destruct (indicators_of d2) as [ind | e]; cbn [bind]; [| reflexivity].
  destruct (summary_of ind) as [sm | e]; cbn [bind]; [| reflexivity].
  split; reflexivity.
Qed.

(** X3: an entry under a key the method does not read changes nothing:
    the call returns the same assessment, with the same proof, and logs
    the same.  [has_ei_balance], [n_excitatory] and [n_inhibitory], which
    the docstring lists, are such keys. *)
Theorem X3_unread_keys_change_nothing
        (json_dumps : pyval -> option string)
        (sha256_hexdigest : string -> string)
        (self : assessor) (now : string) (spike_data : dict)
        (k : string) (v : pyval) :
  mem k read_keys = false ->
  assess_from_spikes json_dumps sha256_hexdigest now (dict_set k v spike_data)
    self
  = assess_from_spikes json_dumps sha256_hexdigest now spike_data self.
Proof.
  intros Hk.
  assert (G : forall k' dflt,
             mem k' read_keys = true ->
             get (dict_set k v spike_data) k' dflt = get spike_data k' dflt).
  { intros k' dflt Hk'. apply get_set_other. exact (not_read k k' Hk Hk'). }
  assert (E : assessment_of now (dict_set k v spike_data)
              = assessment_of now spike_data).
  { unfold assessment_of, indicators_of, rpt, gwt, hot, pp, ast. cbv zeta.
    rewrite !G by reflexivity. reflexivity. }
  unfold assess_from_spikes. rewrite E. reflexivity.
Qed.

(** The entry point passes the three unread fields. *)
Lemma X3_unread_keys_change_nothing_witness :
  assess_from_spikes sample_dumps sample_sha256 sample_now
    (dict_set "has_ei_balance" (PBool true) demo_input) init
  = assess_from_spikes sample_dumps sample_sha256 sample_now demo_input init.
Proof.
  apply (X3_unread_keys_change_nothing
           sample_dumps sample_sha256 init sample_now demo_input
           "has_ei_balance" (PBool true)).
  reflexivity.
Defined.

Example main_input_is_demo_input :
  assess_from_spikes sample_dumps sample_sha256 sample_now main_input init
  = demo_call.
Proof. vm_compute. reflexivity. Qed.

(** X4: [mean_firing_rate] is echoed into [snn_config] and plays no part
    in the scoring: whatever it is set to, the call raises the same
    error or computes the same indicators and the same summary. *)
Theorem X4_firing_rate_is_not_scored
        (now : string) (spike_data : dict) (v : pyval) :
  same_scoring
    (assessment_of now (dict_set "mean_firing_rate" v spike_data))
    (assessment_of now spike_data).
Proof.
  apply same_scoring_of_indicators.
  unfold indicators_of, rpt, gwt, hot, pp, ast. cbv zeta.
  rewrite !get_set_other by reflexivity. reflexivity.
Qed.

(** X5: [n_neurons] is looked at only after [synchrony_index > 0.5] has
    held: when the synchrony is a number not above 0.5, any value under
    [n_neurons], a number or not, gives the same indicators and the same
    summary. *)
Theorem X5_neuron_count_unread_at_low_synchrony
        (now : string) (spike_data : dict) (v : pyval) :
  number (get spike_data "synchrony_index" (PInt 0)) ->
  nv (get spike_data "synchrony_index" (PInt 0)) <= 0.5 ->
  same_scoring
    (assessment_of now (dict_set "n_neurons" v spike_data))
    (assessment_of now spike_data).
Proof.
  intros Hnum Hlow.
  apply same_scoring_of_indicators.
  assert (C : Qltb (nv (PFloat 0.5))
                (nv (get spike_data "synchrony_index" (PInt 0))) = false)
    by (apply Qltb_false; exact Hlow).
  unfold indicators_of, rpt, gwt, hot, pp, ast. cbv zeta.
  repeat match goal with
         | |- context [get (dict_set "n_neurons" ?x ?d) ?k ?dflt] =>
             rewrite (get_set_other "n_neurons" k x dflt d) by reflexivity
         end.
  rewrite (py_gt_number _ (PFloat 0.5) Hnum I), C. cbn [bind].
  reflexivity.
Qed.

(** Synchrony 0.2, and [None] in place of 100 neurons. *)
Lemma X5_neuron_count_unread_at_low_synchrony_witness :
  same_scoring
    (assessment_of sample_now (dict_set "n_neurons" PNone quiet_input))
    (assessment_of sample_now quiet_input).
Proof.
  apply (X5_neuron_count_unread_at_low_synchrony
           sample_now quiet_input PNone).
  - exact I.
  - vm_compute. discriminate.
Defined.

(** ** The sub-signals as functions of the input *)

Lemma rpt_exact (d : dict) (rec gamma : pyval) :
  number rec -> number gamma ->
  exists s,
    rpt d rec gamma =
      Ok [("recurrent_processing", get d "network_recurrence" (PBool false));
          ("feedback_depth", rec);
          ("gamma_oscillations", PBool (gt gamma (PFloat 0.2)));
          ("score", s)].
Proof.
  intros Hrec Hgamma. unfold rpt, gt. cbv zeta.
  repeat step. all: eexists; reflexivity.
Qed.

Lemma gwt_exact (d : dict) (n sync gamma : pyval) :
  number n -> number sync -> number gamma ->
  number (get d "information_transfer" (PInt 0)) ->
  exists s,
    gwt d n sync gamma =
      Ok [("global_broadcast",
           PBool (gt sync (PFloat 0.5) && gt n (PInt 500)));
          ("ignition_detected",
           PBool (gt gamma (PFloat 0.4) && gt sync (PFloat 0.6)));
          ("information_transfer", get d "information_transfer" (PInt 0));
          ("score", s)].
Proof.
  intros Hn Hsync Hgamma Hit. unfold gwt, gt.
  repeat step. all: eexists; reflexivity.
Qed.

Lemma hot_exact (d : dict) (rec alpha : pyval) :
  number rec -> number alpha ->
  exists s,
    hot d rec alpha =
      Ok [("hierarchical_processing",
           if gt rec (PInt 4)
           then get d "has_top_down_connections" (PBool false)
           else PBool false);
          ("lateral_inhibition", get d "has_lateral_inhibition" (PBool false));
          ("alpha_modulation", PBool (gt alpha (PFloat 0.2)));
          ("score", s)].
Proof.
  intros Hrec Halpha. unfold hot, gt. cbv zeta.
  repeat step.
  all: try solve [eexists; reflexivity].
  all: exfalso; nv_simpl; lra.
Qed.

Lemma pp_exact (d : dict) (theta : pyval) :
  number theta ->
  exists s,
    pp d theta =
      Ok [("synaptic_plasticity", get d "has_synaptic_plasticity" (PBool false));
          ("top_down_predictions",
           get d "has_top_down_connections" (PBool false));
          ("theta_oscillations", PBool (gt theta (PFloat 0.2)));
          ("score", s)].
Proof.
  intros Htheta. unfold pp, gt. cbv zeta.
  repeat step. all: eexists; reflexivity.
Qed.

Lemma ast_exact (d : dict) (sync : pyval) :
  number sync ->
  exists s,
    ast d sync =
      Ok [("attention_mechanism",
           if truthy (get d "has_lateral_inhibition" (PBool false))
           then PBool (gt sync (PFloat 0.3))
           else get d "has_lateral_inhibition" (PBool false));
          ("attention_schema", get d "has_attention_mechanism" (PBool false));
          ("score", s)]
    /\ (s = PInt 0 \/ s = PFloat (1 # 2) \/ s = PFloat 1).
Proof.
  intros Hsync. unfold ast, gt. cbv zeta.
  rewrite (py_gt_number sync (PFloat 0.3) Hsync I).
  destruct (truthy (get d "has_lateral_inhibition" (PBool false))) eqn:L;
    cbn [bind truthy]; rewrite ?L;
    destruct (Qltb (nv (PFloat 0.3)) (nv sync));
    destruct (truthy (get d "has_attention_mechanism" (PBool false)));
    eexists; (split; [reflexivity |]); vm_compute; tauto.
Qed.

Lemma indicators_of_exact (d : dict) :
  numeric_inputs d ->
  exists ind, indicators_of d = Ok ind /\ indicators_exact d ind.
Proof.
  intros (Hn & Hsync & Hrec & Hit & bands & Hb & Hg & Ht & Ha).
  unfold indicators_of. cbv zeta. rewrite Hb. cbn [attr_get bind].
  destruct (rpt_exact d _ _ Hrec Hg) as (s1 & E1).
  destruct (gwt_exact d _ _ _ Hn Hsync Hg Hit) as (s2 & E2).
  destruct (hot_exact d _ _ Hrec Ha) as (s3 & E3).
  destruct (pp_exact d _ Ht) as (s4 & E4).
  destruct (ast_exact d _ Hsync) as (s5 & E5 & H5).
  rewrite E1, E2, E3, E4, E5. cbn [bind].
  eexists. split; [reflexivity |].
  exists bands, s1, s2, s3, s4, s5. split; [exact Hb |].
  cbv zeta. split; [reflexivity | exact H5].
Qed.

Lemma returned_indicators
      (json_dumps : pyval -> option string)
      (sha256_hexdigest : string -> string)
      (self self' : assessor) (now : string) (d a ind : dict) :
  assess_from_spikes json_dumps sha256_hexdigest now d self = (Ok a, self') ->
  indicators_of d = Ok ind ->
  dict_get "indicators" a = Some (PDict ind).
Proof.
  intros Hcall Hi. apply assess_Ok_inv in Hcall.
  destruct Hcall as (pre & js & Epre & _ & -> & _).
  destruct (assessment_of_inv _ _ _ Epre) as (ind' & sm & Hi' & _ & ->).
  rewrite Hi in Hi'. injection Hi' as <-. reflexivity.
Qed.

(** X6: for an input of the documented shape, every sub-signal of a
    returned assessment is the test the source writes, on the input with
    its defaults in place and with strict comparisons: gamma, alpha and
    theta above 0.2; broadcast when synchrony is above 0.5 and there are
    more than 500 neurons; ignition when gamma is above 0.4 and synchrony
    above 0.6; hierarchy when the depth is above 4 and there are top-down
    connections; attention when there is lateral inhibition and synchrony
    is above 0.3.  The AST score is 0, 0.5 or 1.0. *)
Theorem X6_sub_signals_are_the_threshold_tests
        (json_dumps : pyval -> option string)
        (sha256_hexdigest : string -> string)
        (self self' : assessor) (now : string) (spike_data a : dict) :
  shape_ok spike_data = true ->
  assess_from_spikes json_dumps sha256_hexdigest now spike_data self
  = (Ok a, self') ->
  exists ind,
    dict_get "indicators" a = Some (PDict ind) /\
    indicators_exact spike_data ind.
Proof.
  intros Hshape Hcall.
  destruct (indicators_of_exact _ (shape_ok_numeric _ Hshape))
    as (ind & Hi & Hex).
  exists ind. split; [| exact Hex].
  exact (returned_indicators _ _ _ _ _ _ _ _ Hcall Hi).
Qed.

(** The entry point's call. *)
Lemma X6_sub_signals_are_the_threshold_tests_witness :
  exists ind,
    dict_get "indicators" demo_assessment = Some (PDict ind) /\
    indicators_exact demo_input ind.
Proof.
  apply (X6_sub_signals_are_the_threshold_tests
           sample_dumps sample_sha256 init demo_after sample_now demo_input
           demo_assessment).
  - reflexivity.
  - vm_compute. reflexivity.
Defined.

Lemma gt_trans_const (v : pyval) (lo hi : Q) :
  lo <= hi -> Qltb hi (nv v) = true -> Qltb lo (nv v) = true.
Proof.
  intros Hle H. apply Qltb_true in H. apply Qltb_true. lra.
Qed.

(** X7: in a returned assessment for an input of the documented shape,
    [ignition_detected] implies [gamma_oscillations],
    [hierarchical_processing] implies [top_down_predictions], and
    [attention_mechanism] implies [lateral_inhibition]. *)
Theorem X7_sub_signals_imply_one_another
        (json_dumps : pyval -> option string)
        (sha256_hexdigest : string -> string)
        (self self' : assessor) (now : string) (spike_data a : dict) :
  shape_ok spike_data = true ->
  assess_from_spikes json_dumps sha256_hexdigest now spike_data self
  = (Ok a, self') ->
  (is_True (indicator_entry a "GWT" "ignition_detected") = true ->
   is_True (indicator_entry a "RPT" "gamma_oscillations") = true) /\
  (is_True (indicator_entry a "HOT" "hierarchical_processing") = true ->
   is_True (indicator_entry a "PP" "top_down_predictions") = true) /\
  (is_True (indicator_entry a "AST" "attention_mechanism") = true ->
   is_True (indicator_entry a "HOT" "lateral_inhibition") = true).
Proof.
  intros Hshape Hcall.
  destruct (indicators_of_exact _ (shape_ok_numeric _ Hshape))
    as (ind & Hi & Hex).
  pose proof (returned_indicators _ _ _ _ _ _ _ _ Hcall Hi) as Ha.
  unfold indicator_entry. rewrite Ha.
  destruct Hex as (bands & s1 & s2 & s3 & s4 & s5 & Hb & Hex).
  cbv zeta in Hex. destruct Hex as (-> & _).
  cbn [signal fst snd dict_get get String.eqb Ascii.eqb Bool.eqb].
  split; [| split].
  - unfold gt. cbn [is_True nv as_num num_Q].
    destruct (Qltb 0.4 (nv (get bands "gamma" (PInt 0)))) eqn:C;
      [| discriminate].
    intros _.
    rewrite (gt_trans_const _ 0.2 0.4); [reflexivity | lra | exact C].
  - destruct (gt (get spike_data "recurrence_depth" (PInt 0)) (PInt 4));
      [auto | discriminate].
  - assert (L : is_bool (get spike_data "has_lateral_inhibition" (PBool false))
                = true).
    { unfold get.
      destruct (dict_get "has_lateral_inhibition" spike_data) as [v |] eqn:E;
        [| reflexivity].
      apply (shape_ok_field _ _ _ Hshape) in E. exact E. }
    destruct (get spike_data "has_lateral_inhibition" (PBool false));
      try discriminate L.
    destruct b; cbn [truthy is_True]; auto.
Qed.

(** The entry point's call. *)
Lemma X7_sub_signals_imply_one_another_witness :
  (is_True (indicator_entry demo_assessment "GWT" "ignition_detected") = true ->
   is_True (indicator_entry demo_assessment "RPT" "gamma_oscillations") = true)
  /\
  (is_True (indicator_entry demo_assessment "HOT" "hierarchical_processing")
   = true ->
   is_True (indicator_entry demo_assessment "PP" "top_down_predictions") = true)
  /\
  (is_True (indicator_entry demo_assessment "AST" "attention_mechanism") = true ->
   is_True (indicator_entry demo_assessment "HOT" "lateral_inhibition") = true).
Proof.
  apply (X7_sub_signals_imply_one_another
           sample_dumps sample_sha256 init demo_after sample_now demo_input).
  - reflexivity.
  - vm_compute. reflexivity.
Defined.

(** X8: for an input of the documented shape, whatever its
    [information_transfer], a returned assessment has its RPT, HOT, PP
    and AST scores in [0, 1], its GWT score at most 1 and its credence at
    most 100: a negative band power adds nothing, and only the
    information transfer can take a score below 0. *)
Theorem X8_scores_capped_whatever_the_transfer
        (json_dumps : pyval -> option string)
        (sha256_hexdigest : string -> string)
        (self self' : assessor) (now : string) (spike_data a : dict) :
  shape_ok spike_data = true ->
  assess_from_spikes json_dumps sha256_hexdigest now spike_data self
  = (Ok a, self') ->
  capped a.
Proof.
  intros Hshape Hcall.
  pose proof (shape_ok_numeric _ Hshape) as Hnum.
  destruct (assessment_of_numeric now _ Hnum)
    as (ind & c & Epre & Hind & Nc & Uc & _).
  apply assess_Ok_inv in Hcall.
  destruct Hcall as (pre & js & Epre' & _ & -> & _).
  rewrite Epre in Epre'. injection Epre' as <-.
  destruct Hind as (g & s1 & b & i & s2 & h & x & s3 & t & s4 & att & s5 &
                    -> & P1 & (N2 & U2 & _) & P3 & P4 & P5 & _).
  unfold capped. rewrite !score_of_proof, summary_entry_proof.
  cbn [signal fst snd dict_get get String.eqb Ascii.eqb Bool.eqb].
  unfold in_range. tauto.
Qed.

(** With [information_transfer = -1.0]: the bounds that remain. *)
Lemma X8_scores_capped_whatever_the_transfer_witness :
  capped negative_assessment.
Proof.
  apply (X8_scores_capped_whatever_the_transfer
           sample_dumps sample_sha256 init negative_after sample_now
           negative_transfer negative_assessment).
  - reflexivity.
  - vm_compute. reflexivity.
Defined.

(** ** The log and the status *)

Lemma run_link
      (json_dumps : pyval -> option string)
      (sha256_hexdigest : string -> string)
      (calls : list (string * dict)) (self : assessor) :
  exists hs,
    proof_chain (snd (run json_dumps sha256_hexdigest self calls))
    = (proof_chain self ++ hs)%list /\
    assessments (snd (run json_dumps sha256_hexdigest self calls))
    = (assessments self
       ++ returned (fst (run json_dumps sha256_hexdigest self calls)))%list /\
    map proof_entry
      (returned (fst (run json_dumps sha256_hexdigest self calls)))
    = map (fun h => PStr ("sha256:" ++ h)) hs.
Proof.
  revert self. induction calls as [| [now d] calls IH]; intros self.
  - exists []. simpl. rewrite !app_nil_r. auto.
  - simpl.
    destruct (assess_from_spikes json_dumps sha256_hexdigest now d self)
      as [r self1] eqn:Hcall.
    destruct (IH self1) as (hs & Hc & Ha & Hp).
    destruct (run json_dumps sha256_hexdigest self1 calls) as [rs self2].
    simpl in *. destruct r as [a | e].
    + apply assess_Ok_inv in Hcall.
      destruct Hcall as (pre & js & _ & _ & -> & ->).
      exists (substring 0 32 (sha256_hexdigest js) :: hs).
      rewrite Hc, Ha. unfold logged. cbn [proof_chain assessments].
      rewrite <- !app_assoc. cbn [app returned map].
      repeat split. rewrite Hp. f_equal.
      unfold proof_entry, get. rewrite dict_get_set_same. reflexivity.
    + apply assess_Raise_inv in Hcall. subst self1.
      exists hs. cbn [returned]. auto.
Qed.

(** X9: on an assessor created by [__init__], after any sequence of
    calls the history holds exactly the assessments the calls returned,
    in call order, and the proof entry of the k-th of them is
    ["sha256:"] followed by the k-th entry of the proof chain after
    ["GENESIS"]. *)
Theorem X9_history_and_chain_run_in_step
        (json_dumps : pyval -> option string)
        (sha256_hexdigest : string -> string)
        (calls : list (string * dict)) :
  let rs := fst (run json_dumps sha256_hexdigest init calls) in
  let self := snd (run json_dumps sha256_hexdigest init calls) in
  assessments self = returned rs /\
  map proof_entry (assessments self)
  = map (fun h => PStr ("sha256:" ++ h)) (tl (proof_chain self)).
Proof.
  cbv zeta.
  destruct (run_link json_dumps sha256_hexdigest calls init)
    as (hs & Hc & Ha & Hp).
  rewrite Ha, Hc. cbn [init assessments proof_chain app tl].
  split; [reflexivity | exact Hp].
Qed.

(** X10: after any sequence of calls on a fresh assessor, [status()]
    reports the fixed module name, the number of calls that returned,
    and the four fixed capabilities; that number is the length of the
    proof chain less one. *)
Theorem X10_status_counts_the_returned_calls
        (json_dumps : pyval -> option string)
        (sha256_hexdigest : string -> string)
        (calls : list (string * dict)) :
  let rs := fst (run json_dumps sha256_hexdigest init calls) in
  let self := snd (run json_dumps sha256_hexdigest init calls) in
  status self =
    [("module", PStr "ORION-Brian2-Consciousness");
     ("assessments", PInt (Z.of_nat (successes rs)));
     ("capabilities",
      PList [PStr "snn_consciousness_assessment"; PStr "spike_train_analysis";
             PStr "oscillation_mapping"; PStr "14_indicator_assessment"])] /\
  (Z.of_nat (successes rs)
   = Z.of_nat (List.length (proof_chain self)) - 1)%Z.
Proof.
  cbv zeta.
  destruct (run_log json_dumps sha256_hexdigest calls init)
    as (hs & ls & Hc & Ha & Lh & Ll).
  unfold status. rewrite Ha, Hc. cbn [init assessments proof_chain app].
  cbn [List.length]. rewrite Ll, Lh. split; [reflexivity | lia].
Qed.

(** X11: what a call returns and what it appends to the history and to
    the proof chain are fixed by the input and the clock reading: they
    are the same on every assessor, so an entry of the proof chain is
    not computed from the entries before it.  A call appends to both
    sequences or to neither, and at most one entry. *)
Theorem X11_a_call_does_not_read_the_log
        (json_dumps : pyval -> option string)
        (sha256_hexdigest : string -> string)
        (now : string) (spike_data : dict) :
  exists r hs ls,
    (forall self,
        assess_from_spikes json_dumps sha256_hexdigest now spike_data self
        = (r, {| assessments := (assessments self ++ ls)%list;
                 proof_chain := (proof_chain self ++ hs)%list |})) /\
    List.length hs = List.length ls /\
    (List.length ls <= 1)%nat.
Proof.
  unfold assess_from_spikes, mbind, lift.
  destruct (assessment_of now spike_data) as [pre | e].
  - unfold proof_hash_of.
    destruct (json_dumps (PDict pre)) as [js |].
    + do 3 eexists. split; [intros self; cbn; reflexivity |].
      split; [reflexivity | cbn; lia].
    + exists (Raise SerializationError), [], [].
      split; [| split; [reflexivity | cbn; lia]].
      intros [hist chain]. cbn. rewrite !app_nil_r. reflexivity.
  - exists (Raise e), [], [].
    split; [| split; [reflexivity | cbn; lia]].
    intros [hist chain]. cbn. rewrite !app_nil_r. reflexivity.
Qed.

(** ** Rounded results *)

Lemma py_round_decimals (v r : pyval) (n : nat) :
  py_round v n = Ok r -> decimals n r.
Proof.
  unfold py_round, decimals.
  destruct (as_num v) as [[z | q] |] eqn:E; intros [= <-].
  - exists (z * Zpos (pow10 n))%Z. unfold nv. cbn [as_num num_Q].
    unfold Qeq, inject_Z. simpl. lia.
  - eexists. unfold nv. cbn [as_num num_Q]. apply Qred_correct.
Qed.

Lemma indicators_of_inv (d ind : dict) :
  indicators_of d = Ok ind ->
  exists bands RPT GWT HOT PP AST,
    get d "population_oscillations" (PDict []) = PDict bands /\
    rpt d (get d "recurrence_depth" (PInt 0)) (get bands "gamma" (PInt 0))
    = Ok RPT /\
    gwt d (get d "n_neurons" (PInt 0)) (get d "synchrony_index" (PInt 0))
      (get bands "gamma" (PInt 0)) = Ok GWT /\
    hot d (get d "recurrence_depth" (PInt 0)) (get bands "alpha" (PInt 0))
    = Ok HOT /\
    pp d (get bands "theta" (PInt 0)) = Ok PP /\
    ast d (get d "synchrony_index" (PInt 0)) = Ok AST /\
    ind = [("RPT", PDict RPT); ("GWT", PDict GWT); ("HOT", PDict HOT);
           ("PP", PDict PP); ("AST", PDict AST)].
Proof.
  unfold indicators_of. cbv zeta.
  destruct (get d "population_oscillations" (PDict [])) as
    [| b | z | q | s | l | bands | o]; cbn [attr_get bind];
    try discriminate.
  intros H. invert_binds H. injection H as <-.
  exists bands. do 5 eexists. repeat split; eassumption.
Qed.

Ltac block_score H :=
  cbv zeta in H; invert_binds H; injection H as <-;
  eexists; split; [reflexivity |];
  match goal with
  | E : py_round _ _ = Ok _ |- _ => exact (py_round_decimals _ _ _ E)
  end.

Lemma rpt_score_decimals (d dct : dict) (rec gamma : pyval) :
  rpt d rec gamma = Ok dct ->
  exists s, dict_get "score" dct = Some s /\ decimals 3 s.
Proof. unfold rpt. intros H. block_score H. Qed.

Lemma gwt_score_decimals (d dct : dict) (n sync gamma : pyval) :
  gwt d n sync gamma = Ok dct ->
  exists s, dict_get "score" dct = Some s /\ decimals 3 s.
Proof. unfold gwt. intros H. block_score H. Qed.

Lemma hot_score_decimals (d dct : dict) (rec alpha : pyval) :
  hot d rec alpha = Ok dct ->
  exists s, dict_get "score" dct = Some s /\ decimals 3 s.
Proof. unfold hot. intros H. block_score H. Qed.

Lemma pp_score_decimals (d dct : dict) (theta : pyval) :
  pp d theta = Ok dct ->
  exists s, dict_get "score" dct = Some s /\ decimals 3 s.
Proof. unfold pp. intros H. block_score H. Qed.

Lemma ast_score_decimals (d dct : dict) (sync : pyval) :
  ast d sync = Ok dct ->
  exists s, dict_get "score" dct = Some s /\ decimals 3 s.
Proof. unfold ast. intros H. block_score H. Qed.

(** ** The score as a function of the information transfer *)

Lemma round_half_even_mono (p q : Q) :
  p <= q -> (round_half_even p <= round_half_even q)%Z.
Proof.
  intros Hle.
  pose proof (Qfloor_resp_le _ _ Hle) as Hf.
  destruct (Z.eq_dec (Qfloor p) (Qfloor q)) as [E | NE].
  - unfold round_half_even. rewrite <- E.
    destruct (p - inject_Z (Qfloor p) ?= 1 # 2) eqn:Cp;
      destruct (q - inject_Z (Qfloor p) ?= 1 # 2) eqn:Cq;
      try (destruct (Z.even (Qfloor p))); try lia;
      exfalso;
      repeat match goal with
             | H : (_ ?= _) = Eq |- _ => apply Qeq_alt in H
             | H : (_ ?= _) = Lt |- _ => apply Qlt_alt in H
             | H : (_ ?= _) = Gt |- _ => apply Qgt_alt in H
             end; lra.
  - assert (H1 : (round_half_even p <= Qfloor p + 1)%Z).
    { apply round_half_even_upper. apply Qlt_le_weak. apply Qlt_floor. }
    assert (H2 : (Qfloor q <= round_half_even q)%Z).
    { apply round_half_even_lower. apply Qfloor_le. }
    lia.
Qed.

Lemma round_to_mono (p q : Q) (n : nat) :
  p <= q -> round_to p n <= round_to q n.
Proof.
  intros Hle. unfold round_to.
  assert (Hs : 0 < inject_Z (Zpos (pow10 n))) by (unfold Qlt; simpl; lia).
  assert (H : (round_half_even (p * inject_Z (Zpos (pow10 n)))
               <= round_half_even (q * inject_Z (Zpos (pow10 n))))%Z).
  { apply round_half_even_mono.
    apply Qmult_le_compat_r; [exact Hle | lra]. }
  unfold Qle. simpl. nia.
Qed.

Lemma round_half_even_Z (m : Z) : round_half_even (inject_Z m) = m.
Proof.
  unfold round_half_even. rewrite Qfloor_Z.
  destruct (inject_Z m - inject_Z m ?= 1 # 2) eqn:C; [| reflexivity |].
  - apply Qeq_alt in C. exfalso. lra.
  - apply Qgt_alt in C. exfalso. lra.
Qed.

Lemma py_round_value (v : pyval) (n : nat) :
  number v ->
  exists r, py_round v n = Ok r /\ number r /\ nv r == round_to (nv v) n.
Proof.
  destruct v; simpl; intros Hv; try contradiction.
  - exists (PInt z). split; [reflexivity |]. split; [exact I |].
    unfold nv, round_to. cbn [as_num num_Q].
    rewrite <- inject_Z_mult, round_half_even_Z.
    unfold Qeq, inject_Z. simpl. lia.
  - eexists. split; [reflexivity |]. split; [exact I |].
    unfold nv, round_to. cbn [as_num num_Q]. apply Qred_correct.
Qed.

(** As [step], with the value of a rounded result. *)
Ltac step_value :=
  match goal with
  | |- context [if Qltb ?x ?y then _ else _] => step
  | |- context [if truthy ?x then _ else _] => step
  | |- context [py_round ?a ?n] =>
      let r := fresh "r" in
      let E := fresh "E" in
      let N := fresh "N" in
      let W := fresh "W" in
      destruct (py_round_value a n) as (r & E & N & W);
      [num | rewrite E; clear E]; cbn [bind truthy]
  | _ => step
  end.

Lemma gwt_value (d : dict) (n sync gamma : pyval) :
  number n -> number sync -> number gamma ->
  number (get d "information_transfer" (PInt 0)) ->
  exists s c,
    gwt d n sync gamma =
      Ok [("global_broadcast",
           PBool (gt sync (PFloat 0.5) && gt n (PInt 500)));
          ("ignition_detected",
           PBool (gt gamma (PFloat 0.4) && gt sync (PFloat 0.6)));
          ("information_transfer", get d "information_transfer" (PInt 0));
          ("score", s)]
    /\ number s /\ nv s == round_to c 3 /\
    let raw :=
      (if gt sync (PFloat 0.5) && gt n (PInt 500) then 0.4 else 0)
      + (if gt gamma (PFloat 0.4) && gt sync (PFloat 0.6) then 0.3 else 0)
      + 0.3 * nv (get d "information_transfer" (PInt 0)) in
    (raw < 1 /\ c == raw) \/ (1 <= raw /\ c == 1).
Proof.
  intros Hn Hsync Hgamma Hit. unfold gwt, gt.
  repeat step_value.
  all: try solve
         [ do 2 eexists; split; [reflexivity |]; split; [assumption |];
           split; [eassumption |];
           cbv zeta; cbn [andb]; nv_simpl;
           first [left; split; lra | right; split; lra] ].
  all: exfalso; nv_simpl; lra.
Qed.

Lemma summary_value (x1 y1 z1 s1 x2 y2 z2 s2 x3 y3 z3 s3 x4 y4 z4 s4
                       x5 y5 s5 : pyval) :
  number s1 -> number s2 -> number s3 -> number s4 -> number s5 ->
  exists c t sat,
    summary_of
      [("RPT",
        PDict [("recurrent_processing", x1); ("feedback_depth", y1);
               ("gamma_oscillations", z1); ("score", s1)]);
       ("GWT",
        PDict [("global_broadcast", x2); ("ignition_detected", y2);
               ("information_transfer", z2); ("score", s2)]);
       ("HOT",
        PDict [("hierarchical_processing", x3); ("lateral_inhibition", y3);
               ("alpha_modulation", z3); ("score", s3)]);
       ("PP",
        PDict [("synaptic_plasticity", x4); ("top_down_predictions", y4);
               ("theta_oscillations", z4); ("score", s4)]);
       ("AST",
        PDict [("attention_mechanism", x5); ("attention_schema", y5);
               ("score", s5)])]
    = Ok [("credence", c); ("satisfied_indicators", sat)]
    /\ nv c == round_to t 1
    /\ t == 100 * (0.20 * nv s1 + 0.25 * nv s2 + 0.20 * nv s3
                   + 0.20 * nv s4 + 0.15 * nv s5).
Proof.
  intros N1 N2 N3 N4 N5. unfold summary_of.
  change (scores_of _ THEORIES) with (Ok [s1; s2; s3; s4; s5]).
  cbn [bind combine weights weighted_sum].
  repeat step_value.
  match goal with
  | |- context [total_indicators ?ind THEORIES] =>
      assert (T : exists k, total_indicators ind THEORIES = Ok k)
        by (eexists; reflexivity)
  end.
  destruct T as (k & ->). cbn [bind].
  do 3 eexists. split; [reflexivity |]. split; [eassumption |].
  nv_simpl. lra.
Qed.

Lemma shape_ok_set (d : dict) (k : string) (v : pyval) :
  shape_ok d = true -> field_ok k v = true ->
  shape_ok (dict_set k v d) = true.
Proof.
  unfold shape_ok. intros Hd Hv.
  induction d as [| [k' v'] d IH]; simpl in *.
  - rewrite Hv. reflexivity.
  - apply andb_true_iff in Hd. destruct Hd as [H1 H2].
    destruct (String.eqb k k') eqn:E; simpl.
    + apply String.eqb_eq in E. subst k'. rewrite Hv, H2. reflexivity.
    + rewrite H1, (IH H2). reflexivity.
Qed.

Lemma get_set_same (k : string) (v dflt : pyval) (d : dict) :
  get (dict_set k v d) k dflt = v.
Proof. unfold get. rewrite dict_get_set_same. reflexivity. Qed.

Lemma rpt_ignores_transfer (v : pyval) (d : dict) (rec gamma : pyval) :
  rpt (dict_set "information_transfer" v d) rec gamma = rpt d rec gamma.
Proof. unfold rpt. rewrite !get_set_other by reflexivity. reflexivity. Qed.

Lemma hot_ignores_transfer (v : pyval) (d : dict) (rec alpha : pyval) :
  hot (dict_set "information_transfer" v d) rec alpha = hot d rec alpha.
Proof. unfold hot. rewrite !get_set_other by reflexivity. reflexivity. Qed.

Lemma pp_ignores_transfer (v : pyval) (d : dict) (theta : pyval) :
  pp (dict_set "information_transfer" v d) theta = pp d theta.
Proof. unfold pp. rewrite !get_set_other by reflexivity. reflexivity. Qed.

Lemma ast_ignores_transfer (v : pyval) (d : dict) (sync : pyval) :
  ast (dict_set "information_transfer" v d) sync = ast d sync.
Proof. unfold ast. rewrite !get_set_other by reflexivity. reflexivity. Qed.

Lemma gwt_mono (d : dict) (x y : Q) (n sync gamma : pyval) :
  number n -> number sync -> number gamma -> x <= y ->
  exists b i s s',
    gwt (with_transfer x d) n sync gamma =
      Ok [("global_broadcast", b); ("ignition_detected", i);
          ("information_transfer", PFloat x); ("score", s)] /\
    gwt (with_transfer y d) n sync gamma =
      Ok [("global_broadcast", b); ("ignition_detected", i);
          ("information_transfer", PFloat y); ("score", s')] /\
    number s /\ number s' /\ nv s <= nv s'.
Proof.
  intros Hn Hsync Hgamma Hle.
  assert (Gx : get (with_transfer x d) "information_transfer" (PInt 0)
               = PFloat x) by apply get_set_same.
  assert (Gy : get (with_transfer y d) "information_transfer" (PInt 0)
               = PFloat y) by apply get_set_same.
  destruct (gwt_value (with_transfer x d) n sync gamma Hn Hsync Hgamma)
    as (s & c & E & N & V & R); [rewrite Gx; exact I |].
  destruct (gwt_value (with_transfer y d) n sync gamma Hn Hsync Hgamma)
    as (s' & c' & E' & N' & V' & R'); [rewrite Gy; exact I |].
  rewrite Gx in E, R. rewrite Gy in E', R'.
  do 4 eexists. split; [exact E |]. split; [exact E' |].
  split; [exact N |]. split; [exact N' |].
  rewrite V, V'. apply round_to_mono.
  cbv zeta in R, R'. unfold nv in R, R'. cbn [as_num num_Q] in R, R'.
  destruct (gt sync (PFloat 0.5) && gt n (PInt 500));
    destruct (gt gamma (PFloat 0.4) && gt sync (PFloat 0.6));
    destruct R as [[R1 R2] | [R1 R2]];
    destruct R' as [[R1' R2'] | [R1' R2']]; lra.
Qed.

(** X13: on an input of the documented shape, a larger
    [information_transfer] never gives a smaller GWT score or a smaller
    credence, and it leaves the four other scores as they are. *)
Theorem X13_more_transfer_never_lowers_the_scores
        (now : string) (spike_data : dict) (x y : Q) :
  shape_ok spike_data = true ->
  x <= y ->
  exists a1 a2,
    assessment_of now (with_transfer x spike_data) = Ok a1 /\
    assessment_of now (with_transfer y spike_data) = Ok a2 /\
    nv (score_of a1 "GWT") <= nv (score_of a2 "GWT") /\
    nv (summary_entry a1 "credence") <= nv (summary_entry a2 "credence") /\
    (forall t, In t ["RPT"; "HOT"; "PP"; "AST"] ->
               score_of a1 t = score_of a2 t).
Proof.
  intros Hshape Hle.
  destruct (shape_ok_numeric _ Hshape)
    as (Hn & Hsync & Hrec & _ & bands & Hb & Hg & Ht & Ha).
  destruct (rpt_spec spike_data _ _ Hrec Hg) as (g & s1 & E1 & N1 & _).
  destruct (hot_spec spike_data _ _ Hrec Ha) as (h & a & s3 & E3 & _ & N3 & _).
  destruct (pp_spec spike_data _ Ht) as (t & s4 & E4 & N4 & _).
  destruct (ast_spec spike_data _ Hsync) as (att & s5 & E5 & _ & N5 & _).
  destruct (gwt_mono spike_data x y _ _ _ Hn Hsync Hg Hle)
    as (b & i & s2 & s2' & Ex & Ey & N2 & N2' & Hs).
  assert (I : forall z gz,
             gwt (with_transfer z spike_data)
               (get spike_data "n_neurons" (PInt 0))
               (get spike_data "synchrony_index" (PInt 0))
               (get bands "gamma" (PInt 0)) = Ok gz ->
             indicators_of (with_transfer z spike_data)
             = Ok [("RPT",
                    PDict [("recurrent_processing",
                            get spike_data "network_recurrence" (PBool false));
                           ("feedback_depth",
                            get spike_data "recurrence_depth" (PInt 0));
                           ("gamma_oscillations", PBool g);
                           ("score", s1)]);
                   ("GWT", PDict gz);
                   ("HOT",
                    PDict [("hierarchical_processing", h);
                           ("lateral_inhibition",
                            get spike_data "has_lateral_inhibition"
                              (PBool false));
                           ("alpha_modulation", PBool a);
                           ("score", s3)]);
                   ("PP",
                    PDict [("synaptic_plasticity",
                            get spike_data "has_synaptic_plasticity"
                              (PBool false));
                           ("top_down_predictions",
                            get spike_data "has_top_down_connections"
                              (PBool false));
                           ("theta_oscillations", PBool t);
                           ("score", s4)]);
                   ("AST",
                    PDict [("attention_mechanism", att);
                           ("attention_schema",
                            get spike_data "has_attention_mechanism"
                              (PBool false));
                           ("score", s5)])]).
  { intros z gz Ez. unfold indicators_of. cbv zeta.
    unfold with_transfer in *.
    rewrite !get_set_other by reflexivity.
    rewrite Hb. cbn [attr_get bind].
    rewrite rpt_ignores_transfer, hot_ignores_transfer,
      pp_ignores_transfer, ast_ignores_transfer.
    rewrite E1. cbn [bind]. rewrite Ez. cbn [bind].
    rewrite E3. cbn [bind]. rewrite E4. cbn [bind]. rewrite E5.
    reflexivity. }
  pose proof (I x _ Ex) as Ix. pose proof (I y _ Ey) as Iy.
  destruct (summary_value
              (get spike_data "network_recurrence" (PBool false))
              (get spike_data "recurrence_depth" (PInt 0)) (PBool g) s1
              b i (PFloat x) s2
              h (get spike_data "has_lateral_inhibition" (PBool false))
              (PBool a) s3
              (get spike_data "has_synaptic_plasticity" (PBool false))
              (get spike_data "has_top_down_connections" (PBool false))
              (PBool t) s4
              att (get spike_data "has_attention_mechanism" (PBool false)) s5
              N1 N2 N3 N4 N5) as (c & q & sat & Sx & Vx & Tx).
  destruct (summary_value
              (get spike_data "network_recurrence" (PBool false))
              (get spike_data "recurrence_depth" (PInt 0)) (PBool g) s1
              b i (PFloat y) s2'
              h (get spike_data "has_lateral_inhibition" (PBool false))
              (PBool a) s3
              (get spike_data "has_synaptic_plasticity" (PBool false))
              (get spike_data "has_top_down_connections" (PBool false))
              (PBool t) s4
              att (get spike_data "has_attention_mechanism" (PBool false)) s5
              N1 N2' N3 N4 N5) as (c' & q' & sat' & Sy & Vy & Ty).
  do 2 eexists.
  split; [unfold assessment_of; cbv zeta; rewrite Ix; cbn [bind];
          rewrite Sx; reflexivity |].
  split; [unfold assessment_of; cbv zeta; rewrite Iy; cbn [bind];
          rewrite Sy; reflexivity |].
  split; [exact Hs |]. split.
  - change (nv c <= nv c'). rewrite Vx, Vy. apply round_to_mono. lra.
  - intros th [<- | [<- | [<- | [<- | []]]]]; reflexivity.
Qed.

(** The entry point's input with the transfer at 0.1 and at 0.9. *)
Lemma X13_more_transfer_never_lowers_the_scores_witness :
  exists a1 a2,
    assessment_of sample_now (with_transfer 0.1 demo_input) = Ok a1 /\
    assessment_of sample_now (with_transfer 0.9 demo_input) = Ok a2 /\
    nv (score_of a1 "GWT") <= nv (score_of a2 "GWT") /\
    nv (summary_entry a1 "credence") <= nv (summary_entry a2 "credence") /\
    (forall t, In t ["RPT"; "HOT"; "PP"; "AST"] ->
               score_of a1 t = score_of a2 t).
Proof.
  apply (X13_more_transfer_never_lowers_the_scores
           sample_now demo_input 0.1 0.9).
  - reflexivity.
  - vm_compute. discriminate.
Defined.

(** Three calls, of which the second is rejected by the serialiser: two
    assessments logged, two proof entries after ["GENESIS"]. *)
Example three_calls_log_two :
  let self := snd (run sample_dumps sample_sha256 init three_calls) in
  dict_get "assessments" (status self) = Some (PInt 2) /\
  List.length (proof_chain self) = 3%nat /\
  map is_Ok (fst (run sample_dumps sample_sha256 init three_calls))
  = [true; false; true].
Proof. vm_compute. repeat split; reflexivity. Qed.

(** ** The credence as a weighted mean *)

Lemma round_to_lower (t : Q) (k : Z) (n : nat) :
  k # pow10 n <= t -> k # pow10 n <= round_to t n.
Proof.
  intros H. unfold round_to.
  assert (Hk : (k <= round_half_even (t * inject_Z (Zpos (pow10 n))))%Z).
  { apply round_half_even_lower.
    unfold Qle, Qmult, inject_Z in *. cbn [Qnum Qden] in *. lia. }
  unfold Qle. simpl. nia.
Qed.

Lemma round_to_upper (t : Q) (k : Z) (n : nat) :
  t <= k # pow10 n -> round_to t n <= k # pow10 n.
Proof.
  intros H. unfold round_to.
  assert (Hk : (round_half_even (t * inject_Z (Zpos (pow10 n))) <= k)%Z).
  { apply round_half_even_upper.
    unfold Qle, Qmult, inject_Z in *. cbn [Qnum Qden] in *. lia. }
  unfold Qle. simpl. nia.
Qed.

Lemma hundredfold (q : Q) (k : Z) :
  q == k # pow10 3 -> 100 * q == k # pow10 1.
Proof.
  intros H. rewrite H.
  change (pow10 3) with 1000%positive. change (pow10 1) with 10%positive.
  unfold Qeq, Qmult. cbn [Qnum Qden]. lia.
Qed.

(** X14: in a returned assessment for an input whose
    [information_transfer] is of magnitude at most [10 ^ 300], the
    credence is at least 100 times the lowest of the five scores and at
    most 100 times the highest: the weights add up to 1 and the
    rounding to one decimal does not pass a score, which has three. *)
Theorem X14_credence_between_the_extreme_scores
        (json_dumps : pyval -> option string)
        (sha256_hexdigest : string -> string)
        (self self' : assessor) (now : string) (spike_data a : dict)
        (m : string) :
  transfer_bounded spike_data ->
  assess_from_spikes json_dumps sha256_hexdigest now spike_data self
  = (Ok a, self') ->
  In m THEORIES ->
  ((forall t, In t THEORIES -> nv (score_of a m) <= nv (score_of a t)) ->
   100 * nv (score_of a m) <= nv (summary_entry a "credence")) /\
  ((forall t, In t THEORIES -> nv (score_of a t) <= nv (score_of a m)) ->
   nv (summary_entry a "credence") <= 100 * nv (score_of a m)).
Proof.
  intros _ Hcall Hm. apply assess_Ok_inv in Hcall.
  destruct Hcall as (pre & js & Epre & _ & -> & _).
  destruct (assessment_of_inv _ _ _ Epre) as (ind & sm & Hi & Hs & ->).
  destruct (indicators_of_inv _ _ Hi)
    as (bands & RPT & GWT & HOT & PP & AST & _ & H1 & H2 & H3 & H4 & H5 & ->).
  pose proof (rpt_score_decimals _ _ _ _ H1) as (s1' & E1 & D1).
  pose proof (gwt_score_decimals _ _ _ _ _ H2) as (s2' & E2 & D2).
  pose proof (hot_score_decimals _ _ _ _ H3) as (s3' & E3 & D3).
  pose proof (pp_score_decimals _ _ _ H4) as (s4' & E4 & D4).
  pose proof (ast_score_decimals _ _ _ H5) as (s5' & E5 & D5).
  apply rpt_layout in H1. destruct H1 as (x1 & y1 & z1 & s1 & -> & N1).
  apply gwt_layout in H2. destruct H2 as (x2 & y2 & z2 & s2 & -> & N2).
  apply hot_layout in H3. destruct H3 as (x3 & y3 & z3 & s3 & -> & N3).
  apply pp_layout in H4. destruct H4 as (x4 & y4 & z4 & s4 & -> & N4).
  apply ast_layout in H5. destruct H5 as (x5 & y5 & s5 & -> & N5).
  injection E1 as <-. injection E2 as <-. injection E3 as <-.
  injection E4 as <-. injection E5 as <-.
  destruct (summary_value x1 y1 z1 s1 x2 y2 z2 s2 x3 y3 z3 s3 x4 y4 z4 s4
              x5 y5 s5 N1 N2 N3 N4 N5) as (c & t & sat & Es & Vc & Vt).
  rewrite Es in Hs. injection Hs as <-.
  assert (S : forall th,
             score_of
               (dict_set "proof"
                  (PStr ("sha256:" ++ substring 0 32 (sha256_hexdigest js)))
                  (pre_proof now spike_data
                     [("RPT",
                       PDict [("recurrent_processing", x1);
                              ("feedback_depth", y1);
                              ("gamma_oscillations", z1); ("score", s1)]);
                      ("GWT",
                       PDict [("global_broadcast", x2);
                              ("ignition_detected", y2);
                              ("information_transfer", z2); ("score", s2)]);
                      ("HOT",
                       PDict [("hierarchical_processing", x3);
                              ("lateral_inhibition", y3);
                              ("alpha_modulation", z3); ("score", s3)]);
                      ("PP",
                       PDict [("synaptic_plasticity", x4);
                              ("top_down_predictions", y4);
                              ("theta_oscillations", z4); ("score", s4)]);
                      ("AST",
                       PDict [("attention_mechanism", x5);
                              ("attention_schema", y5); ("score", s5)])]
                     [("credence", c); ("satisfied_indicators", sat)])) th
             = signal
                 [("RPT", PDict [("score", s1)]); ("GWT", PDict [("score", s2)]);
                  ("HOT", PDict [("score", s3)]); ("PP", PDict [("score", s4)]);
                  ("AST", PDict [("score", s5)])] (th, "score")).
  { intros th. rewrite score_of_proof. unfold signal. cbn [fst snd dict_get].
    destruct (String.eqb th "RPT"); [reflexivity |].
    destruct (String.eqb th "GWT"); [reflexivity |].
    destruct (String.eqb th "HOT"); [reflexivity |].
    destruct (String.eqb th "PP"); [reflexivity |].
    destruct (String.eqb th "AST"); reflexivity. }
  rewrite summary_entry_proof.
  change (get [("credence", c); ("satisfied_indicators", sat)] "credence"
            PNone) with c.
  assert (A : forall th, In th THEORIES ->
                exists k, nv (score_of
               (dict_set "proof"
                  (PStr ("sha256:" ++ substring 0 32 (sha256_hexdigest js)))
                  (pre_proof now spike_data
                     [("RPT",
                       PDict [("recurrent_processing", x1);
                              ("feedback_depth", y1);
                              ("gamma_oscillations", z1); ("score", s1)]);
                      ("GWT",
                       PDict [("global_broadcast", x2);
                              ("ignition_detected", y2);
                              ("information_transfer", z2); ("score", s2)]);
                      ("HOT",
                       PDict [("hierarchical_processing", x3);
                              ("lateral_inhibition", y3);
                              ("alpha_modulation", z3); ("score", s3)]);
                      ("PP",
                       PDict [("synaptic_plasticity", x4);
                              ("top_down_predictions", y4);
                              ("theta_oscillations", z4); ("score", s4)]);
                      ("AST",
                       PDict [("attention_mechanism", x5);
                              ("attention_schema", y5); ("score", s5)])]
                     [("credence", c); ("satisfied_indicators", sat)])) th)
                          == k # pow10 3).
  { intros th [<- | [<- | [<- | [<- | [<- | []]]]]]; rewrite S; cbn;
      assumption. }
  destruct (A m Hm) as (k & Dk).
  pose proof (hundredfold _ _ Dk) as Hk.
  split; intros Hall.
  - rewrite Hk, Vc. apply round_to_lower. rewrite <- Hk.
    pose proof (Hall "RPT") as B1. pose proof (Hall "GWT") as B2.
    pose proof (Hall "HOT") as B3. pose proof (Hall "PP") as B4.
    pose proof (Hall "AST") as B5.
    rewrite !S in B1, B2, B3, B4, B5. rewrite S.
    cbn [signal fst snd dict_get get String.eqb Ascii.eqb Bool.eqb]
      in B1, B2, B3, B4, B5.
    specialize (B1 ltac:(simpl; tauto)). specialize (B2 ltac:(simpl; tauto)).
    specialize (B3 ltac:(simpl; tauto)). specialize (B4 ltac:(simpl; tauto)).
    specialize (B5 ltac:(simpl; tauto)).
    lra.
  - rewrite Hk, Vc. apply round_to_upper. rewrite <- Hk.
    pose proof (Hall "RPT") as B1. pose proof (Hall "GWT") as B2.
    pose proof (Hall "HOT") as B3. pose proof (Hall "PP") as B4.
    pose proof (Hall "AST") as B5.
    rewrite !S in B1, B2, B3, B4, B5. rewrite S.
    cbn [signal fst snd dict_get get String.eqb Ascii.eqb Bool.eqb]
      in B1, B2, B3, B4, B5.
    specialize (B1 ltac:(simpl; tauto)). specialize (B2 ltac:(simpl; tauto)).
    specialize (B3 ltac:(simpl; tauto)). specialize (B4 ltac:(simpl; tauto)).
    specialize (B5 ltac:(simpl; tauto)).
    lra.
Qed.

(** The entry point's call, whose lowest score is AST's 0.5 and whose
    credence is 75.7. *)
Lemma X14_credence_between_the_extreme_scores_witness :
  ((forall t, In t THEORIES ->
              nv (score_of demo_assessment "AST")
              <= nv (score_of demo_assessment t)) ->
   100 * nv (score_of demo_assessment "AST")
   <= nv (summary_entry demo_assessment "credence")) /\
  ((forall t, In t THEORIES ->
              nv (score_of demo_assessment t)
              <= nv (score_of demo_assessment "AST")) ->
   nv (summary_entry demo_assessment "credence")
   <= 100 * nv (score_of demo_assessment "AST")).
Proof.
  apply (X14_credence_between_the_extreme_scores
           sample_dumps sample_sha256 init demo_after sample_now demo_input
           demo_assessment "AST").
  - split; vm_compute; discriminate.
  - vm_compute. reflexivity.
  - simpl. tauto.
Defined.
